(** * MachineLearningStocks: a shallow embedding of the pipeline

    The development follows the repository file by file:
    - [Py]            : the Python values the code computes with: floats
                        (exact rationals, with [NaN]), exceptions, masks;
    - [Pandas]        : the fragment of the data-frame library the code calls
                        ([dropna], [reindex], [ffill], [.loc], [.empty]);
    - [Logging]       : computations that log, and return or raise;
    - [Backtesting]   : backtesting.py ([load_data], [split_data],
                        [evaluate_model], [calculate_returns], [backtest]);
    - [StockPrediction] : the head of stock_prediction.py;
    - [Regex]         : a backtracking matcher with the priorities of
                        Python's [re], and the two patterns of the extractor;
    - [Values]        : value-list entries, dates, rounding;
    - [ParsingKeystats] and [CurrentData] : parsing_keystats.py and
                        current_data.py;
    - [Utils]         : the normaliser of utils.py, after the specification.

    The second part holds the definitions that word the specification and
    the concrete scenarios; the third part the theorems.

    Floats are modelled as exact rationals extended with NaN: rounding error
    of binary floating point is outside the model. Library calls whose result
    the code only passes on (reading a file, the random draw of a split, the
    classifier, [strptime] and [time.mktime]) are parameters. The local time
    zone is its offset from UTC at each instant, so that daylight saving is
    a change of the offset. *)

From Stdlib Require Import List Bool Arith ZArith QArith Qround Lia.
From Stdlib Require Import Ascii String.
Import ListNotations.

Local Open Scope Z_scope.
Local Open Scope list_scope.

(* ===================================================================== *)
(** * Python values                                                       *)
(* ===================================================================== *)

Module Py.

(** The exceptions the modelled code raises or catches. *)
Inductive exn : Type :=
| KeyError | ValueError | IndexError | AttributeError | TypeError
| ZeroDivisionError | OSError.

(** A computation either returns or raises. *)
Inductive result (A : Type) : Type :=
| Ok (a : A)
| Raise (e : exn).
Arguments Ok {A} a.
Arguments Raise {A} e.

Definition bind {A B} (r : result A) (k : A -> result B) : result B :=
  match r with
  | Ok a => k a
  | Raise e => Raise e
  end.

Definition is_ok {A} (r : result A) : bool :=
  match r with Ok _ => true | Raise _ => false end.

(** A float: a rational, or NaN ([None]). *)
Definition float : Type := option Q.

Definition NaN : float := None.
Definition num (q : Q) : float := Some q.

Definition lift2 (op : Q -> Q -> Q) (a b : float) : float :=
  match a, b with
  | Some x, Some y => Some (op x y)
  | _, _ => None
  end.

Definition fadd : float -> float -> float := lift2 Qplus.
Definition fsub : float -> float -> float := lift2 Qminus.
Definition fmul : float -> float -> float := lift2 Qmult.
(** Division of numpy floats. Infinities are not modelled: a zero divisor
    gives NaN (no divisor of the modelled code is zero, except in [0/0]). *)
Definition fdiv (a b : float) : float :=
  match a, b with
  | Some x, Some y => if Qeq_bool y 0 then None else Some (x / y)%Q
  | _, _ => None
  end.

(** Equality of floats up to the representation of the rational. *)
Definition feq (a b : float) : Prop :=
  match a, b with
  | Some x, Some y => (x == y)%Q
  | None, None => True
  | _, _ => False
  end.

Definition isna (a : float) : bool :=
  match a with None => true | Some _ => false end.

(** [sum(xs)] of the builtins: [0 + x1 + ... + xn], left to right. *)
Definition py_sum (xs : list float) : float :=
  fold_left fadd xs (num 0).

(** [sum] of a boolean vector counts its [True] entries. *)
Definition sum_bool (bs : list bool) : Z :=
  fold_left (fun acc (b : bool) => if b then acc + 1 else acc) bs 0.

(** [a[mask]] for a boolean numpy mask: the entries at the [True] positions;
    a mask of another length is an [IndexError]. *)
Fixpoint mask_select {A} (a : list A) (mask : list bool) : result (list A) :=
  match a, mask with
  | [], [] => Ok []
  | x :: a', b :: mask' =>
      bind (mask_select a' mask')
           (fun r => Ok (if b then x :: r else r))
  | _, _ => Raise IndexError
  end.

(** [a[idx]] for an integer index array; out of bounds is an [IndexError]. *)
Fixpoint take_rows {A} (a : list A) (idx : list nat) : result (list A) :=
  match idx with
  | [] => Ok []
  | i :: idx' =>
      match nth_error a i with
      | Some x => bind (take_rows a idx') (fun r => Ok (x :: r))
      | None => Raise IndexError
      end
  end.

End Py.

Export Py.

Declare Scope py_scope.
Notation "x <- c ;; k" := (bind c (fun x => k))
  (at level 61, c at next level, right associativity) : py_scope.
Notation "' p <- c ;; k" := (bind c (fun x => let p := x in k))
  (at level 61, p pattern, c at next level, right associativity) : py_scope.
Local Open Scope py_scope.

(* ===================================================================== *)
(** * The data-frame operations the code calls                            *)
(* ===================================================================== *)

Module Pandas.

(** A frame: the column names and the rows in index order, each row with its
    index label. A cell is a float; an empty CSV cell reads as NaN. (The one
    text column of keystats.csv, Ticker, enters no computation of the
    modelled code; where a frame has it, a ticker is carried as a number.) *)
Record DataFrame (L : Type) : Type := mkDF {
  columns : list string;
  rows : list (L * list float)
}.
Arguments mkDF {L} columns rows.
Arguments columns {L} d.
Arguments rows {L} d.

(** [pd.DataFrame()] *)
Definition empty_frame {L} : DataFrame L := mkDF [] [].

(** [df.index] *)
Definition index {L} (df : DataFrame L) : list L := map fst (rows df).

(** [df.empty]: some axis has length zero. *)
Definition empty {L} (df : DataFrame L) : bool :=
  match rows df, columns df with
  | [], _ => true
  | _, [] => true
  | _, _ => false
  end.

Definition row_complete (r : list float) : bool :=
  forallb (fun c => negb (isna c)) r.

(** [df.dropna(axis=0, how="any")]: keep the rows without a NaN cell. *)
Definition dropna {L} (df : DataFrame L) : DataFrame L :=
  mkDF (columns df) (filter (fun lr => row_complete (snd lr)) (rows df)).

Fixpoint col_pos (c : string) (cols : list string) : option nat :=
  match cols with
  | [] => None
  | c' :: cols' =>
      if String.eqb c c' then Some O
      else option_map S (col_pos c cols')
  end.

(** [df[c]]: the column named [c]; a [KeyError] when there is none. *)
Definition get_column {L} (df : DataFrame L) (c : string) : result (list float) :=
  match col_pos c (columns df) with
  | Some j => Ok (map (fun lr => nth j (snd lr) NaN) (rows df))
  | None => Raise KeyError
  end.

(** Frames indexed by calendar day (a day number). *)

(** [pd.date_range(start, end)]: every day from [start] to [end_], both
    included; empty when [end_ < start]. *)
Definition date_range (start end_ : Z) : list Z :=
  map (fun k => start + Z.of_nat k) (seq 0 (Z.to_nat (end_ - start + 1))).

Fixpoint find_row (d : Z) (rs : list (Z * list float)) : option (list float) :=
  match rs with
  | [] => None
  | (d', r) :: rs' => if d =? d' then Some r else find_row d rs'
  end.

Fixpoint has_duplicates (ls : list Z) : bool :=
  match ls with
  | [] => false
  | l :: ls' => existsb (Z.eqb l) ls' || has_duplicates ls'
  end.

(** [df.reindex(idx)]: one row per label of [idx], the old row where the
    label exists and a row of NaN where it does not; refuses an index with
    duplicate labels. *)
Definition reindex (df : DataFrame Z) (idx : list Z) : result (DataFrame Z) :=
  if has_duplicates (index df) then Raise ValueError
  else Ok (mkDF (columns df)
             (map (fun d =>
                     (d, match find_row d (rows df) with
                         | Some r => r
                         | None => repeat NaN (List.length (columns df))
                         end)) idx)).

(** One step of forward fill: a NaN cell takes the cell above it. *)
Fixpoint fill_row (prev r : list float) : list float :=
  match r with
  | [] => []
  | c :: r' => (if isna c then hd NaN prev else c) :: fill_row (tl prev) r'
  end.

Fixpoint ffill_from {L} (prev : list float) (rs : list (L * list float))
  : list (L * list float) :=
  match rs with
  | [] => []
  | (l, r) :: rs' =>
      let r' := fill_row prev r in (l, r') :: ffill_from r' rs'
  end.

(** [df.ffill()]: column by column, propagate the last valid cell downwards. *)
Definition ffill {L} (df : DataFrame L) : DataFrame L :=
  mkDF (columns df) (ffill_from [] (rows df)).

(** [df.loc[d, c]]: the cell at label [d] and column [c]; a [KeyError] when
    the label or the column does not exist. *)
Definition loc (df : DataFrame Z) (d : Z) (c : string) : result float :=
  match find_row d (rows df) with
  | None => Raise KeyError
  | Some r =>
      match col_pos c (columns df) with
      | None => Raise KeyError
      | Some j => Ok (nth j r NaN)
      end
  end.

End Pandas.

Export Pandas.

(* ===================================================================== *)
(** * Logging                                                             *)
(* ===================================================================== *)

Module Logging.

Inductive level : Type := INFO | WARNING | ERROR.

(** A log record: its severity and the text of its message (the format
    string; interpolated values are not part of the model). *)
Record log_record : Type := Log { lvl : level; msg : string }.

(** A computation that logs, and then returns or raises. *)
Definition M (A : Type) : Type := (list log_record * result A)%type.

Definition retM {A} (a : A) : M A := ([], Ok a).

Definition bindM {A B} (m : M A) (k : A -> M B) : M B :=
  match m with
  | (l, Ok a) => let (l', r) := k a in (l ++ l', r)
  | (l, Raise e) => (l, Raise e)
  end.

Definition logM (lv : level) (s : string) : M unit := ([Log lv s], Ok tt).

Definition liftM {A} (r : result A) : M A := ([], r).

Definition output {A} (m : M A) : result A := snd m.
Definition records {A} (m : M A) : list log_record := fst m.

End Logging.

Export Logging.

Notation "x <~ c ;; k" := (bindM c (fun x => k))
  (at level 61, c at next level, right associativity) : py_scope.
Notation "' p <~ c ;; k" := (bindM c (fun x => let p := x in k))
  (at level 61, p pattern, c at next level, right associativity) : py_scope.
Notation "c ;;; k" := (bindM c (fun _ => k))
  (at level 61, right associativity) : py_scope.

(* ===================================================================== *)
(** * backtesting.py                                                      *)
(* ===================================================================== *)

Module Backtesting.

(** Modelled from the spec: [utils.status_calc] is imported by backtesting.py
    and stock_prediction.py but utils.py is not among the sources. Section 4.3:
    [outperformance_label = (ticker_percent_change - benchmark_percent_change)
    >= outperformance_threshold_percent]. A comparison with NaN is false. *)
Definition outperforms (outperformance : Q) (stock sp500 : float) : bool :=
  match fsub stock sp500 with
  | Some d => Qle_bool outperformance d
  | None => false
  end.

(** Modelled from the spec: [utils.status_calc] on two columns, row by row. *)
Fixpoint status_calc (stock sp500 : list float) (outperformance : Q) : list bool :=
  match stock, sp500 with
  | s :: stock', m :: sp500' =>
      outperforms outperformance s m :: status_calc stock' sp500' outperformance
  | _, _ => []
  end.

(** [load_data]: [csv] is what [pd.read_csv(file_path, index_col="Date")]
    returns or raises. *)
Definition load_data {L} (csv : result (DataFrame L)) : M (DataFrame L) :=
  match csv with
  | Ok data_df => retM (dropna data_df)
  | Raise _ =>
      logM ERROR "Error loading data from {file_path}: {str(e)}" ;;;
      retM empty_frame
  end.

(** [accuracy = clf.score(X_test, y_test)]: the share of predictions equal to
    the label. *)
Definition count_true (bs : list bool) : Z := sum_bool bs.

Fixpoint agree (y_true y_pred : list bool) : list bool :=
  match y_true, y_pred with
  | t :: y_true', p :: y_pred' => Bool.eqb t p :: agree y_true' y_pred'
  | _, _ => []
  end.

Fixpoint true_positives (y_true y_pred : list bool) : list bool :=
  match y_true, y_pred with
  | t :: y_true', p :: y_pred' => (t && p) :: true_positives y_true' y_pred'
  | _, _ => []
  end.

Definition accuracy_score (y_true y_pred : list bool) : float :=
  match y_true with
  | [] => NaN
  | _ => num (inject_Z (count_true (agree y_true y_pred))
              / inject_Z (Z.of_nat (List.length y_true)))
  end.

(** [sklearn.metrics.precision_score]: true positives over predicted
    positives, and 0 (with a warning of the library) when nothing is predicted
    positive. *)
Definition precision_score (y_true y_pred : list bool) : float :=
  let predicted := count_true y_pred in
  if predicted <=? 0 then num 0
  else num (inject_Z (count_true (true_positives y_true y_pred))
            / inject_Z predicted).

(** A Python tuple of numbers. *)
Definition tuple : Type := list float.

(** [a, b, c, d = t]: a tuple of another length is a [ValueError]. *)
Definition unpack4 (t : tuple) : result (float * float * float * float) :=
  match t with
  | [a; b; c; d] => Ok (a, b, c, d)
  | _ => Raise ValueError
  end.

(** [calculate_returns(y_pred, z_test)]; a row of [z_test] is
    [(stock_p_change, SP500_p_change)]. *)
Definition calculate_returns (y_pred : list bool) (z_test : list (float * float))
  : M tuple :=
  let num_positive_predictions := sum_bool y_pred in
  if num_positive_predictions <=? 0 then
    logM WARNING "No stocks predicted!" ;;;
    retM [num 0; num 0; num 0]
  else
    liftM (
      picked <- mask_select z_test y_pred ;;
      let n := num (inject_Z num_positive_predictions) in
      let stock_returns :=
        map (fun r => fadd (num 1) (fdiv (fst r) (num 100))) picked in
      let market_returns :=
        map (fun r => fadd (num 1) (fdiv (snd r) (num 100))) picked in
      let avg_predicted_stock_growth := fdiv (py_sum stock_returns) n in
      let index_growth := fdiv (py_sum market_returns) n in
      let percentage_stock_returns :=
        fmul (num 100) (fsub avg_predicted_stock_growth (num 1)) in
      let percentage_market_returns :=
        fmul (num 100) (fsub index_growth (num 1)) in
      let total_outperformance :=
        fsub percentage_stock_returns percentage_market_returns in
      Ok [n; percentage_stock_returns; percentage_market_returns;
          total_outperformance]).

(** [data_df[data_df.columns[6:]].values]: the cells from the seventh column
    on, row by row. *)
Definition feature_values {L} (data_df : DataFrame L) : list (list float) :=
  map (fun lr => skipn 6 (snd lr)) (rows data_df).

(** [list(status_calc(data_df["stock_p_change"], data_df["SP500_p_change"],
    outperformance=10))]: the labels of [split_data]. *)
Definition labels {L} (data_df : DataFrame L) : result (list bool) :=
  stock <- get_column data_df "stock_p_change" ;;
  sp500 <- get_column data_df "SP500_p_change" ;;
  Ok (status_calc stock sp500 10).

(** [np.array(data_df[["stock_p_change", "SP500_p_change"]])]: the two
    realised returns of every row. *)
Definition returns {L} (data_df : DataFrame L) : result (list (float * float)) :=
  stock <- get_column data_df "stock_p_change" ;;
  sp500 <- get_column data_df "SP500_p_change" ;;
  Ok (combine stock sp500).

Section Pipeline.

(** The libraries' random generator: [RandomState seed] is a generator
    freshly seeded, and [shuffle_split g n test_size] the train and test row
    numbers that [train_test_split] draws for [n] rows from generator [g]
    (or the error it raises for a size it refuses). *)
Variable rng : Type.
Variable RandomState : Z -> rng.
Variable shuffle_split : rng -> nat -> Q -> result (list nat * list nat).

(** The classifier: [RandomForestClassifier(n_estimators=100, random_state=0)]
    with its [fit] and [predict]. *)
Variable classifier : Type.
Variable fit : list (list float) -> list bool -> result classifier.
Variable predict : classifier -> list (list float) -> result (list bool).

(** [train_test_split(X, y, z, test_size=..., random_state=...)]: with an
    integer [random_state] the split draws from a generator seeded with it,
    with [None] from the process-wide generator [global_rng]. *)
Definition train_test_split {A B C} (global_rng : rng)
    (X : list A) (y : list B) (z : list C)
    (test_size : Q) (random_state : option Z)
  : result (list A * list A * list B * list B * list C * list C) :=
  if negb ((List.length X =? List.length y)%nat
           && (List.length X =? List.length z)%nat)
  then Raise ValueError
  else
    let g := match random_state with
             | Some seed => RandomState seed
             | None => global_rng
             end in
    ' (train, test) <- shuffle_split g (List.length X) test_size ;;
    X_train <- take_rows X train ;;
    X_test <- take_rows X test ;;
    y_train <- take_rows y train ;;
    y_test <- take_rows y test ;;
    z_train <- take_rows z train ;;
    z_test <- take_rows z test ;;
    Ok (X_train, X_test, y_train, y_test, z_train, z_test).


(** [split_data(data_df, test_size=0.2)] *)
Definition split_data {L} (global_rng : rng) (data_df : DataFrame L)
    (test_size : Q) :=
  let X := feature_values data_df in
  y <- labels data_df ;;
  z <- returns data_df ;;
  train_test_split global_rng X y z test_size (Some 0).

(** [train_model(X_train, y_train)] *)
Definition train_model (X_train : list (list float)) (y_train : list bool)
  : result classifier :=
  fit X_train y_train.

(** [evaluate_model(clf, X_test, y_test)] *)
Definition evaluate_model (clf : classifier) (X_test : list (list float))
    (y_test : list bool) : result (list bool * float * float) :=
  y_pred <- predict clf X_test ;;
  scored <- predict clf X_test ;;
  let accuracy := accuracy_score y_test scored in
  let precision := precision_score y_test y_pred in
  Ok (y_pred, accuracy, precision).

(** What [backtest] reports in its last four records. *)
Record Report : Type := mkReport {
  total_trades : float;
  avg_strategy_return_pct : float;
  avg_benchmark_return_pct : float;
  outperformance_pct : float
}.

(** [backtest()]: [csv] is what reading keystats.csv gives. The function
    returns [None]; the model returns the figures of its report, or nothing
    when it exits early. *)
Definition backtest {L} (global_rng : rng) (csv : result (DataFrame L))
  : M (option Report) :=
  logM INFO "Starting backtest..." ;;;
  data_df <~ load_data csv ;;
  if empty data_df then
    logM ERROR "Data loading failed. Exiting backtest." ;;;
    retM None
  else
    ' (X_train, X_test, y_train, y_test, z_train, z_test) <~
      liftM (split_data global_rng data_df (2 # 10)) ;;
    clf <~ liftM (train_model X_train y_train) ;;
    ' (y_pred, accuracy, precision) <~ liftM (evaluate_model clf X_test y_test) ;;
    logM INFO "Classifier performance" ;;;
    logM INFO "Accuracy score: {accuracy:.2f}" ;;;
    logM INFO "Precision score: {precision:.2f}" ;;;
    returned <~ calculate_returns y_pred z_test ;;
    ' (num_positive_predictions, percentage_stock_returns,
       percentage_market_returns, total_outperformance) <~
      liftM (unpack4 returned) ;;
    logM INFO "Stock prediction performance report" ;;;
    logM INFO "Total Trades: {num_positive_predictions}" ;;;
    logM INFO "Average return for stock predictions: {percentage_stock_returns:.1f}%" ;;;
    logM INFO "Average market return in the same period: {percentage_market_returns:.1f}%" ;;;
    logM INFO "Compared to the index, our strategy earns {total_outperformance:.1f} percentage points more" ;;;
    retM (Some (mkReport num_positive_predictions percentage_stock_returns
                  percentage_market_returns total_outperformance)).

End Pipeline.

End Backtesting.

(* ===================================================================== *)
(** * stock_prediction.py                                                 *)
(* ===================================================================== *)

Module StockPrediction.

(** [OUTPERFORMANCE = int(os.getenv("OUTPERFORMANCE", 10))]: [env] is the
    integer the environment variable holds, if it is set. *)
Definition OUTPERFORMANCE (env : option Z) : Z :=
  match env with
  | Some v => v
  | None => 10
  end.

(** [load_data]: [csv] is what [pd.read_csv(file_path, index_col="Date")]
    returns or raises. *)
Definition load_data {L} (csv : result (DataFrame L)) : M (DataFrame L) :=
  match csv with
  | Ok data_df => retM (dropna data_df)
  | Raise _ =>
      logM ERROR "Error loading data from {file_path}: {str(e)}" ;;;
      retM empty_frame
  end.

(** The head of [build_data_set] (lines 32 to 38): the training features
    [X_train], or [None] when loading failed. *)
Definition training_features {L} (csv : result (DataFrame L))
  : M (option (list (list float))) :=
  training_data <~ load_data csv ;;
  if empty training_data then
    logM ERROR "Training data loading failed. Exiting build_data_set." ;;;
    retM None
  else
    retM (Some (Backtesting.feature_values training_data)).

End StockPrediction.

(* ===================================================================== *)
(** * Regular expressions                                                 *)
(* ===================================================================== *)

Module Regex.

(** The constructs the extractor's patterns use, under [re.DOTALL]. *)
Inductive regex : Type :=
| Chr (c : ascii)              (* a literal character *)
| Any                          (* [.] : any character, newline included *)
| Class (p : ascii -> bool)    (* [\d], [\s], a bracket class *)
| Cat (r1 r2 : regex)
| Alt (r1 r2 : regex)          (* [r1|r2], the left branch first *)
| Opt (r : regex)              (* [r?] *)
| Star (r : regex)             (* [r*], greedy *)
| LazyStar (r : regex)         (* [r*?] *)
| Group (n : nat) (r : regex)  (* the n-th capturing group *)
| Eps.

Definition captures : Type := list (nat * string).

Fixpoint group (n : nat) (caps : captures) : option string :=
  match caps with
  | [] => None
  | (m, s) :: caps' => if (n =? m)%nat then Some s else group n caps'
  end.

(** The first [n] characters of [s]. *)
Fixpoint prefix (n : nat) (s : string) : string :=
  match n, s with
  | S n', String c s' => String c (prefix n' s')
  | _, _ => EmptyString
  end.

(** Backtracking match of [r] at the head of [s]: [k] is what remains to be
    matched; alternatives are tried in the order of Python's [re] (left
    branch first, greedy operators longest first, lazy ones shortest first).
    An iteration of a star must consume input. *)
Fixpoint matches (r : regex) (s : string) (caps : captures)
    (k : string -> captures -> option captures) {struct r} : option captures :=
  match r with
  | Eps => k s caps
  | Chr c =>
      match s with
      | String c' s' => if Ascii.eqb c c' then k s' caps else None
      | EmptyString => None
      end
  | Any =>
      match s with
      | String _ s' => k s' caps
      | EmptyString => None
      end
  | Class p =>
      match s with
      | String c' s' => if p c' then k s' caps else None
      | EmptyString => None
      end
  | Cat r1 r2 => matches r1 s caps (fun s' caps' => matches r2 s' caps' k)
  | Alt r1 r2 =>
      match matches r1 s caps k with
      | Some c => Some c
      | None => matches r2 s caps k
      end
  | Opt r1 =>
      match matches r1 s caps k with
      | Some c => Some c
      | None => k s caps
      end
  | Star r1 =>
      (fix loop (fuel : nat) (s : string) (caps : captures) : option captures :=
         match fuel with
         | O => k s caps
         | S fuel' =>
             match matches r1 s caps
                     (fun s' caps' =>
                        if (String.length s' <? String.length s)%nat
                        then loop fuel' s' caps' else None) with
             | Some c => Some c
             | None => k s caps
             end
         end) (String.length s) s caps
  | LazyStar r1 =>
      (fix loop (fuel : nat) (s : string) (caps : captures) : option captures :=
         match k s caps with
         | Some c => Some c
         | None =>
             match fuel with
             | O => None
             | S fuel' =>
                 matches r1 s caps
                   (fun s' caps' =>
                      if (String.length s' <? String.length s)%nat
                      then loop fuel' s' caps' else None)
             end
         end) (String.length s) s caps
  | Group n r1 =>
      matches r1 s caps
        (fun s' caps' =>
           k s' ((n, prefix (String.length s - String.length s') s) :: caps'))
  end.

(** [re.search(r, s)]: the match at the leftmost position that has one. *)
Fixpoint search (r : regex) (s : string) : option captures :=
  match matches r s [] (fun _ caps => Some caps) with
  | Some caps => Some caps
  | None =>
      match s with
      | EmptyString => None
      | String _ s' => search r s'
      end
  end.

(** A string matched literally, as [re.escape] makes it. *)
Fixpoint lit (s : string) : regex :=
  match s with
  | EmptyString => Eps
  | String c s' => Cat (Chr c) (lit s')
  end.

Definition Plus (r : regex) : regex := Cat r (Star r).

Definition digit (c : ascii) : bool :=
  let n := nat_of_ascii c in ((48 <=? n) && (n <=? 57))%nat.

(** [\s] of a text pattern, on ASCII. *)
Definition space (c : ascii) : bool :=
  let n := nat_of_ascii c in
  (((9 <=? n) && (n <=? 13)) || ((28 <=? n) && (n <=? 32)))%nat.

(** The class [[\\n|\s]] of the raw pattern: a backslash, [n], [|] or
    white space. *)
Definition na_tail (c : ascii) : bool :=
  Ascii.eqb c "\" || Ascii.eqb c "n" || Ascii.eqb c "|" || space c.

(** [\-?\d+\.*\d*K?M?B?] *)
Definition number : regex :=
  Cat (Opt (Chr "-"))
 (Cat (Plus (Class digit))
 (Cat (Star (Chr "."))
 (Cat (Star (Class digit))
 (Cat (Opt (Chr "K"))
 (Cat (Opt (Chr "M"))
      (Opt (Chr "B"))))))).

(** [N/A[\\n|\s]*] *)
Definition not_available : regex := Cat (lit "N/A") (Star (Class na_tail)).

(** [(</td>|</span>)] *)
Definition terminator : regex := Group 2 (Alt (lit "</td>") (lit "</span>")).

(** [r">" + re.escape(variable)
     + r".*?(\-?\d+\.*\d*K?M?B?|N/A[\\n|\s]*|>0|NaN)%?" r"(</td>|</span>)"] *)
Definition primary_regex (variable : string) : regex :=
  Cat (Chr ">")
 (Cat (lit variable)
 (Cat (LazyStar Any)
 (Cat (Group 1 (Alt number (Alt not_available (Alt (lit ">0") (lit "NaN")))))
 (Cat (Opt (Chr "%"))
      terminator)))).

(** [re.escape(new_variable)
     + r".*?(\-?\d+\.*\d*K?M?B?|N/A[\\n|\s]*|>0)%?" r"(</td>|</span>)"] *)
Definition alternate_regex (new_variable : string) : regex :=
  Cat (lit new_variable)
 (Cat (LazyStar Any)
 (Cat (Group 1 (Alt number (Alt not_available (lit ">0"))))
 (Cat (Opt (Chr "%"))
      terminator))).

(** [re.search(regex, source, flags=re.DOTALL).group(1)], which is an
    [AttributeError] on [None] when nothing matches. (A match in which group 1
    took no part would hand [None] to the caller, whose string test is then a
    [TypeError]; group 1 takes part in every match of the patterns above.) *)
Definition search_group1 (r : regex) (source : string) : result string :=
  match search r source with
  | Some caps =>
      match group 1 caps with
      | Some v => Ok v
      | None => Raise TypeError
      end
  | None => Raise AttributeError
  end.

(** [s.replace(",", "")] *)
Fixpoint remove_commas (s : string) : string :=
  match s with
  | EmptyString => EmptyString
  | String c s' =>
      if Ascii.eqb c "," then remove_commas s' else String c (remove_commas s')
  end.

End Regex.

(* ===================================================================== *)
(** * The extracted values and the clock                                  *)
(* ===================================================================== *)

Module Values.

(** An entry of a value list: a number, or the marker ["N/A"]. *)
Inductive entry : Type :=
| Number (q : Q)
| N_A.

(** A local date and time: the calendar day as a day number counted from
    1970-01-01, and the second within the day. *)
Record datetime : Type := mkDatetime { date : Z; second_of_day : Z }.


(** [round(x)] to the nearest integer, ties to the even one. *)
Definition round_half_even (q : Q) : Z :=
  let f := Qfloor q in
  match Qcompare (q - inject_Z f) (1 # 2) with
  | Lt => f
  | Gt => f + 1
  | Eq => if Z.even f then f else f + 1
  end.

(** [round(x, 2)]; NaN stays NaN. *)
Definition round2 (a : float) : float :=
  option_map (fun q => (inject_Z (round_half_even (q * 100)) / 100)%Q) a.

(** [a / b] on Python floats: a zero divisor is a [ZeroDivisionError]. *)
Definition pydiv (a b : float) : result float :=
  match b with
  | Some y => if Qeq_bool y 0 then Raise ZeroDivisionError
              else Ok (option_map (fun x => (x / y)%Q) a)
  | None => Ok NaN
  end.

(** [round(((later - now) / now * 100), 2)] *)
Definition p_change (later now : float) : result float :=
  ratio <- pydiv (fsub later now) now ;;
  Ok (round2 (fmul ratio (num 100))).

Definition upper_ascii (c : ascii) : ascii :=
  let n := nat_of_ascii c in
  if ((97 <=? n) && (n <=? 122))%nat then ascii_of_nat (n - 32) else c.

(** [s.upper()], on ASCII. *)
Fixpoint upper (s : string) : string :=
  match s with
  | EmptyString => EmptyString
  | String c s' => String (upper_ascii c) (upper s')
  end.

(** [l.remove(x)] when [x in l]: the first occurrence goes. *)
Fixpoint remove_first (x : string) (l : list (string * result string))
  : list (string * result string) :=
  match l with
  | [] => []
  | (name, body) :: l' =>
      if String.eqb x name then l' else (name, body) :: remove_first x l'
  end.

End Values.

Export Values.

(* ===================================================================== *)
(** * parsing_keystats.py                                                 *)
(* ===================================================================== *)

Module ParsingKeystats.

Import Regex.
Local Open Scope string_scope.

(** The list of features to parse from the html files. *)
Definition features : list string :=
  [ "Market Cap"; "Enterprise Value"; "Trailing P/E"; "Forward P/E"; "PEG Ratio";
    "Price/Sales"; "Price/Book"; "Enterprise Value/Revenue"; "Enterprise Value/EBITDA";
    "Profit Margin"; "Operating Margin"; "Return on Assets"; "Return on Equity";
    "Revenue"; "Revenue Per Share"; "Qtrly Revenue Growth"; "Gross Profit";
    "EBITDA"; "Net Income Avl to Common"; "Diluted EPS"; "Qtrly Earnings Growth";
    "Total Cash"; "Total Cash Per Share"; "Total Debt"; "Total Debt/Equity";
    "Current Ratio"; "Book Value Per Share"; "Operating Cash Flow"; "Levered Free Cash Flow";
    "Beta"; "50-Day Moving Average"; "200-Day Moving Average"; "Avg Vol (3 month)";
    "Shares Outstanding"; "Float"; "% Held by Insiders"; "% Held by Institutions";
    "Shares Short (as of"; "Short Ratio"; "Short % of Float"; "Shares Short (prior month" ].

Local Close Scope string_scope.

(** [load_data]: [csv] is what
    [pd.read_csv(file_path, index_col="Date", parse_dates=True)] returns or
    raises. *)
Definition load_data (csv : result (DataFrame Z)) : M (DataFrame Z) :=
  match csv with
  | Ok data_df => retM (dropna data_df)
  | Raise _ =>
      logM ERROR "Error loading data from {file_path}: {str(e)}" ;;;
      retM empty_frame
  end.

(** [reindex_and_fill(df, start_date, end_date)] *)
Definition reindex_and_fill (df : DataFrame Z) (start_date end_date : Z)
  : result (DataFrame Z) :=
  let idx := date_range start_date end_date in
  df <- reindex df idx ;;
  Ok (ffill df).

(** [preprocess_price_data()]: the two arguments are what reading
    sp500_index.csv and stock_prices.csv gives. *)
Definition preprocess_price_data (sp500_csv stock_csv : result (DataFrame Z))
  : M (DataFrame Z * DataFrame Z) :=
  sp500_df <~ load_data sp500_csv ;;
  stock_df <~ load_data stock_csv ;;
  if empty sp500_df || empty stock_df then
    logM ERROR "Error loading SP500 or stock data. Exiting preprocessing." ;;;
    retM (empty_frame, empty_frame)
  else
    let start_date := hd 0 (index stock_df) in
    let end_date := last (index stock_df) 0 in
    sp500_df <~ liftM (reindex_and_fill sp500_df start_date end_date) ;;
    stock_df <~ liftM (reindex_and_fill stock_df start_date end_date) ;;
    retM (sp500_df, stock_df).

(** The fixed forward horizon, in seconds. *)
Definition horizon_seconds : Z := 31536000.

(** What a snapshot contributes to the data set; the fields follow
    [df_columns]. *)
Record LabeledRow : Type := mkRow {
  Date : datetime;
  Unix : Z;
  Ticker : string;
  Price : float;
  stock_p_change : float;
  SP500 : float;
  SP500_p_change : float;
  feature_entries : list entry
}.

(** Modelled from the spec: the source of [parse_keystats] stops inside the
    handler of the second [KeyError] (line 159). Section 4.4: on an Absent
    label the snapshot is skipped entirely (logged at warning severity, then
    the loop continues). *)
Definition stock_data_missing : M (option LabeledRow) :=
  logM WARNING "Stock data missing for {ticker}" ;;;
  retM None.

(** Modelled from the spec: the row that the missing end of [parse_keystats]
    adds for a snapshot whose four prices resolved (section 3, LabeledRow),
    in the order of [df_columns]. *)
Definition new_df_row (date_stamp : datetime) (unix_time : Z) (ticker : string)
    (stock_price stock_p_change sp500_price sp500_p_change : float)
    (value_list : list entry) : M (option LabeledRow) :=
  retM (Some (mkRow date_stamp unix_time ticker stock_price stock_p_change
                sp500_price sp500_p_change value_list)).

Section Extraction.

(** [utils.data_string_to_float]: utils.py is not among the sources, so the
    normaliser is a parameter: any function from the matched token to a
    number or ["N/A"], that may raise. *)
Variable data_string_to_float : string -> result entry.

(** The body of the loop over [features] in [parse_html_file]: the value
    appended for [variable]. An [AttributeError] of the first attempt leads
    to the handler, any other exception leaves the loop. *)
Definition feature_value (source variable : string) : result entry :=
  match (value <- search_group1 (primary_regex variable) source ;;
         data_string_to_float value) with
  | Ok v => Ok v
  | Raise AttributeError =>
      if String.eqb variable "Avg Vol (3 month)" then
        let new_variable := ">Average Volume (3 month)"%string in
        match (value <- search_group1 (alternate_regex new_variable) source ;;
               data_string_to_float value) with
        | Ok v => Ok v
        | Raise AttributeError => Ok N_A
        | Raise e => Raise e
        end
      else Ok N_A
  | Raise e => Raise e
  end.

Fixpoint feature_values (source : string) (features : list string)
  : result (list entry) :=
  match features with
  | [] => Ok []
  | variable :: rest =>
      v <- feature_value source variable ;;
      value_list <- feature_values source rest ;;
      Ok (v :: value_list)
  end.

(** [parse_html_file(file_path, features)]: [file] is what opening and
    reading the file gives. *)
Definition parse_html_file (file : result string) (features : list string)
  : M (list entry) :=
  match (contents <- file ;;
         feature_values (remove_commas contents) features) with
  | Ok value_list => retM value_list
  | Raise _ =>
      logM ERROR "Error parsing HTML file {file_path}: {str(e)}" ;;;
      retM (repeat N_A (List.length features))
  end.

(** The clock. [strptime file] is
    [datetime.strptime(file, "%Y%m%d%H%M%S.html")] and [mktime t] is
    [time.mktime(t.timetuple())], the C library's conversion of a local
    time to an instant. The local time zone is [utc_offset]: at the instant
    [unix_time], local clocks are [utc_offset unix_time] seconds ahead of
    UTC; the offset changes where daylight saving starts or ends. *)
Variable strptime : string -> result datetime.
Variable mktime : datetime -> Z.
Variable utc_offset : Z -> Z.

(** [datetime.fromtimestamp(unix_time)]: what local clocks show at the
    instant. *)
Definition fromtimestamp (unix_time : Z) : datetime :=
  let local := unix_time + utc_offset unix_time in
  mkDatetime (local / 86400) (local mod 86400).

(** [datetime.fromtimestamp(unix_time + 31536000).strftime("%Y-%m-%d")]: the
    day that keys the price lookups. *)
Definition one_year_later (unix_time : Z) : Z :=
  date (fromtimestamp (unix_time + horizon_seconds)).

(** The two prices of one instrument and the rounded percentage change
    between them: the body of each of the two [try] blocks. *)
Definition price_and_change (df : DataFrame Z) (column : string)
    (current_date later_date : Z) : result (float * float) :=
  price <- loc df current_date column ;;
  later_price <- loc df later_date column ;;
  change <- p_change later_price price ;;
  Ok (price, change).

(** The body of the loop over the files of one ticker. *)
Definition snapshot_row (sp500_df stock_df : DataFrame Z) (ticker : string)
    (file : string * result string) : M (option LabeledRow) :=
  date_stamp <~ liftM (strptime (fst file)) ;;
  let unix_time := mktime date_stamp in
  value_list <~ parse_html_file (snd file) features ;;
  let current_date := date (fromtimestamp unix_time) in
  let later_date := one_year_later unix_time in
  match price_and_change sp500_df "Adj Close" current_date later_date with
  | Raise KeyError =>
      logM WARNING "SP500 data missing for {current_date} or {one_year_later}" ;;;
      retM None
  | Raise e => liftM (Raise e)
  | Ok (sp500_price, sp500_p_change) =>
      match price_and_change stock_df (upper ticker) current_date later_date with
      | Raise KeyError => stock_data_missing
      | Raise e => liftM (Raise e)
      | Ok (stock_price, stock_p_change) =>
          new_df_row date_stamp unix_time ticker stock_price stock_p_change
            sp500_price sp500_p_change value_list
      end
  end.

Fixpoint ticker_rows (sp500_df stock_df : DataFrame Z) (ticker : string)
    (files : list (string * result string)) (df : list LabeledRow)
  : M (list LabeledRow) :=
  match files with
  | [] => retM df
  | file :: files' =>
      row <~ snapshot_row sp500_df stock_df ticker file ;;
      ticker_rows sp500_df stock_df ticker files'
        (match row with Some r => df ++ [r] | None => df end)
  end.

(** [parse_keystats(sp500_df, stock_df)]: [stock_list] is the walk of the
    snapshot directory, one (ticker, files) per sub-directory, a file being
    its name and what reading it gives. *)
Fixpoint parse_keystats_from (sp500_df stock_df : DataFrame Z)
    (stock_list : list (string * list (string * result string)))
    (df : list LabeledRow) : M (list LabeledRow) :=
  match stock_list with
  | [] => retM df
  | (ticker, keystats_html_files) :: stock_list' =>
      let keystats_html_files := remove_first ".DS_Store" keystats_html_files in
      df <~ ticker_rows sp500_df stock_df ticker keystats_html_files df ;;
      parse_keystats_from sp500_df stock_df stock_list' df
  end.

Definition parse_keystats (sp500_df stock_df : DataFrame Z)
    (stock_list : list (string * list (string * result string)))
  : M (list LabeledRow) :=
  parse_keystats_from sp500_df stock_df stock_list [].

End Extraction.

End ParsingKeystats.

(* ===================================================================== *)
(** * current_data.py                                                     *)
(* ===================================================================== *)

Module CurrentData.

Import Regex.
Local Open Scope string_scope.

(** These are the features that will be parsed. *)
Definition features : list string :=
  [ "Market Cap"; "Enterprise Value"; "Trailing P/E"; "Forward P/E"; "PEG Ratio";
    "Price/Sales"; "Price/Book"; "Enterprise Value/Revenue"; "Enterprise Value/EBITDA";
    "Profit Margin"; "Operating Margin"; "Return on Assets"; "Return on Equity";
    "Revenue"; "Revenue Per Share"; "Quarterly Revenue Growth"; "Gross Profit";
    "EBITDA"; "Net Income Avi to Common"; "Diluted EPS"; "Quarterly Earnings Growth";
    "Total Cash"; "Total Cash Per Share"; "Total Debt"; "Total Debt/Equity";
    "Current Ratio"; "Book Value Per Share"; "Operating Cash Flow"; "Levered Free Cash Flow";
    "Beta"; "50-Day Moving Average"; "200-Day Moving Average"; "Avg Vol (3 month)";
    "Shares Outstanding"; "Float"; "% Held by Insiders"; "% Held by Institutions";
    "Shares Short"; "Short Ratio"; "Short % of Float"; "Shares Short (prior month)" ].

Local Close Scope string_scope.

Section Extraction.

Variable data_string_to_float : string -> result entry.

(** The body of the loop of [parse_html]: no match gives the token ["N/A"]
    to the normaliser. *)
Definition feature_value (source variable : string) : result entry :=
  let value :=
    match search (primary_regex variable) source with
    | Some caps =>
        match group 1 caps with
        | Some v => Ok v
        | None => Raise TypeError
        end
    | None => Ok "N/A"%string
    end in
  value <- value ;;
  data_string_to_float value.

Fixpoint feature_values (source : string) (features : list string)
  : result (list entry) :=
  match features with
  | [] => Ok []
  | variable :: rest =>
      v <- feature_value source variable ;;
      value_list <- feature_values source rest ;;
      Ok (v :: value_list)
  end.

(** [parse_html(tickerfile)]: [file] is what opening and reading the file
    gives. *)
Definition parse_html (file : result string) : M (list entry) :=
  match (contents <- file ;;
         feature_values (remove_commas contents) features) with
  | Ok value_list => retM value_list
  | Raise _ =>
      logM ERROR "Error parsing file {tickerfile}: {str(e)}" ;;;
      retM (repeat N_A (List.length features))
  end.

End Extraction.

End CurrentData.

(* ===================================================================== *)
(** * utils.py                                                            *)
(* ===================================================================== *)

Module Utils.

Local Open Scope string_scope.

(** [needle in s] *)
Fixpoint contains (needle s : string) : bool :=
  String.prefix needle s
  || match s with
     | EmptyString => false
     | String _ s' => contains needle s'
     end.

(** The digits at the head of [s] read as a natural number, how many there
    were, and the rest of [s]. *)
Fixpoint digits (s : string) (acc : Z) (count : nat) : Z * nat * string :=
  match s with
  | String c s' =>
      if Regex.digit c
      then digits s' (10 * acc + Z.of_nat (nat_of_ascii c - 48)) (S count)
      else (acc, count, s)
  | EmptyString => (acc, count, s)
  end.

(** A decimal mantissa (a sign, digits, then a point and digits, the sign and
    the fraction optional) and what follows it. *)
Definition mantissa (s : string) : option (Q * string) :=
  let '(negative, s) :=
    match s with
    | String "-" s' => (true, s')
    | _ => (false, s)
    end in
  let '(whole, n, rest) := digits s 0 O in
  match n with
  | O => None
  | S _ =>
      let '(q, rest) :=
        match rest with
        | String "." rest' =>
            let '(frac, k, rest'') := digits rest' 0 O in
            ((inject_Z whole + inject_Z frac / inject_Z (10 ^ Z.of_nat k))%Q,
             rest'')
        | _ => (inject_Z whole, rest)
        end in
      Some (if negative then (- q)%Q else q, rest)
  end.

(** Modelled from the spec: [utils.data_string_to_float] is imported by the
    two parsers but utils.py is not among the sources. Section 4.1 (Value
    Normalizer): thousands separators are stripped; a trailing magnitude
    suffix (thousand, million, billion) multiplies the mantissa; the "not
    available" and "NaN" sentinels are Missing; the bare [>0] is treated
    identically to zero; a trailing percent sign is dropped; any
    unparseable token yields Missing and nothing is raised. *)
Definition data_string_to_float (number_string : string) : result entry :=
  let s := Regex.remove_commas number_string in
  if contains "N/A" s || contains "NaN" s then Ok N_A
  else if String.eqb s ">0" then Ok (Number 0)
  else
    match mantissa s with
    | None => Ok N_A
    | Some (q, rest) =>
        match rest with
        | "" | "%" => Ok (Number q)
        | "K" | "K%" => Ok (Number (q * 1000))
        | "M" | "M%" => Ok (Number (q * 1000000))
        | "B" | "B%" => Ok (Number (q * 1000000000))
        | _ => Ok N_A
        end
    end.

End Utils.

(* ===================================================================== *)
(** * current_data.py, continued: the forward sample                      *)
(* ===================================================================== *)

Module Forward.

Local Open Scope string_scope.

(** [l.remove(x)] guarded by [x in l], on a list of names. *)
Fixpoint remove_name (x : string) (l : list string) : list string :=
  match l with
  | [] => []
  | name :: l' => if String.eqb x name then l' else name :: remove_name x l'
  end.

(** [get_ticker_list(statspath)]: [listing] is what [os.listdir] gives. *)
Definition get_ticker_list (listing : list string) : list string :=
  remove_name ".DS_Store" listing.

(** [s.split(sep)[0]]: what precedes the first occurrence of [sep], the whole
    of [s] when there is none. *)
Fixpoint before_first (sep s : string) : string :=
  if String.prefix sep s then EmptyString
  else match s with
       | EmptyString => EmptyString
       | String c s' => String c (before_first sep s')
       end.

(** A cell of the forward sample: the integer 0 of the label columns, a
    text (the ticker, or the marker ["N/A"]), a number, or NaN. *)
Inductive cell : Type :=
| CInt (z : Z)
| CStr (s : string)
| CFloat (q : Q)
| CNaN.

(** An entry of a value list as a cell: the marker is the text ["N/A"]. *)
Definition entry_cell (e : entry) : cell :=
  match e with
  | Number q => CFloat q
  | N_A => CStr "N/A"
  end.

(** [df_columns] of [forward]. *)
Definition df_columns : list string :=
  ([ "Date"; "Unix"; "Ticker"; "Price"; "stock_p_change"; "SP500";
     "SP500_p_change" ] ++ CurrentData.features)%list.

(** [dict(zip(keys, values))[key]]: the last value zipped with [key]. *)
Fixpoint dict_get (key : string) (d : list (string * cell)) : option cell :=
  match d with
  | [] => None
  | (k, v) :: d' =>
      match dict_get key d' with
      | Some c => Some c
      | None => if String.eqb key k then Some v else None
      end
  end.

(** The row that [df.append(d, ignore_index=True)] adds to a frame with the
    given columns, for a dictionary whose keys are among them: the value of
    each column, NaN where the dictionary has none. ([DataFrame.append] is
    the method of the pandas versions that have it, before 2.0.) *)
Definition appended_row (columns : list string) (d : list (string * cell))
  : list cell :=
  map (fun c => match dict_get c d with
                | Some v => v
                | None => CNaN
                end) columns.

(** [df.replace("N/A", np.nan)] on one cell. *)
Definition replace_na (c : cell) : cell :=
  match c with
  | CStr s => if String.eqb s "N/A" then CNaN else c
  | _ => c
  end.

Section Extraction.

Variable data_string_to_float : string -> result entry.

(** The loop of [forward], from the frame [df] built so far. *)
Fixpoint forward_rows (tickerfile_list : list (string * result string))
    (df : list (list cell)) : M (list (list cell)) :=
  match tickerfile_list with
  | [] => retM df
  | tickerfile :: rest =>
      let ticker := upper (before_first ".html" (fst tickerfile)) in
      value_list <~ CurrentData.parse_html data_string_to_float (snd tickerfile) ;;
      let new_df_row :=
        ([CInt 0; CInt 0; CStr ticker; CInt 0; CInt 0; CInt 0; CInt 0]
         ++ map entry_cell value_list)%list in
      forward_rows rest
        (df ++ [appended_row df_columns (combine df_columns new_df_row)])%list
  end.

(** [forward()]: [listing] is the content of the forward directory, each
    file with its name and what reading it gives. The result is the rows of
    the returned frame, whose columns are [df_columns]. *)
Definition forward (listing : list (string * result string))
  : M (list (list cell)) :=
  let tickerfile_list := remove_first ".DS_Store" listing in
  df <~ forward_rows tickerfile_list [] ;;
  retM (map (map replace_na) df).

End Extraction.

End Forward.

(* ===================================================================== *)
(** * download_historical_prices.py                                       *)
(* ===================================================================== *)

Module DownloadHistoricalPrices.

Local Open Scope string_scope.

(** Some row has a price in column [j]. *)
Definition has_value {L} (rs : list (L * list float)) (j : nat) : bool :=
  existsb (fun lr => negb (isna (nth j (snd lr) NaN))) rs.

(** [l[mask]]: the elements at the [True] positions of the mask. *)
Fixpoint select {A} (mask : list bool) (l : list A) : list A :=
  match mask, l with
  | b :: mask', x :: l' => if b then x :: select mask' l' else select mask' l'
  | _, _ => []
  end.

(** [df.dropna(how="all", axis=1)]: drop the columns without any value. *)
Definition dropna_columns {L} (df : DataFrame L) : DataFrame L :=
  let mask := map (has_value (rows df)) (seq 0 (List.length (columns df))) in
  mkDF (select mask (columns df))
       (map (fun lr => (fst lr, select mask (snd lr))) (rows df)).

(** [get_ticker_list(statspath)]: [listing] is what [os.listdir] gives; the
    function also deletes the file [.DS_Store], so it returns the directory
    as it leaves it, and the ticker list. *)
Definition get_ticker_list (listing : list string) : list string * list string :=
  (Forward.remove_name ".DS_Store" listing,
   Forward.remove_name ".DS_Store" listing).

(** [download_data(ticker_list, start, end)]: [adj_close] is what
    [pdr.get_data_yahoo(ticker_list, start, end)["Adj Close"]] gives. *)
Definition download_data (adj_close : result (DataFrame Z)) : M (DataFrame Z) :=
  match adj_close with
  | Ok stock_data => retM (ffill (dropna_columns stock_data))
  | Raise _ =>
      logM ERROR "Error downloading data: %s" ;;;
      retM empty_frame
  end.

(** [t in stock_data.columns] *)
Definition is_column (c : string) (cols : list string) : bool :=
  existsb (String.eqb c) cols.

(** [build_stock_dataset(start, end)]: the function returns nothing; the
    model returns what it writes to stock_prices.csv and the tickers it
    reports missing, or nothing when there is no data. *)
Definition build_stock_dataset (listing : list string)
    (adj_close : result (DataFrame Z))
  : M (option (DataFrame Z * list string)) :=
  logM INFO "Building stock dataset..." ;;;
  let ticker_list := snd (get_ticker_list listing) in
  stock_data <~ download_data adj_close ;;
  if negb (empty stock_data) then
    let missing_tickers :=
      filter (fun ticker => negb (is_column (upper ticker) (columns stock_data)))
             ticker_list in
    logM INFO "%d tickers are missing: %s" ;;;
    retM (Some (stock_data, missing_tickers))
  else
    logM WARNING "No stock data available." ;;;
    retM None.

End DownloadHistoricalPrices.

(* ===================================================================== *)
(** * Specification-side definitions and scenarios                        *)
(* ===================================================================== *)

(** The report as section 4.5 words it, on exact rationals: among the rows
    predicted positive, the forward returns are averaged as growth factors
    [1 + percent_change/100] and the average is converted back to a
    percentage. *)
Module ReturnSpec.

Definition predicted_positive {A} (y_pred : list bool) (z : list A) : list A :=
  map snd (filter fst (combine y_pred z)).

Definition total (xs : list Q) : Q := fold_right Qplus 0%Q xs.

Definition average (xs : list Q) : Q :=
  (total xs / inject_Z (Z.of_nat (List.length xs)))%Q.

Definition growth (percent_change : Q) : Q := (1 + percent_change / 100)%Q.

Definition percentage (g : Q) : Q := (100 * (g - 1))%Q.

Definition average_return (percent_changes : list Q) : Q :=
  percentage (average (map growth percent_changes)).

(** A matrix of numbers as the float array the code receives. *)
Definition floats (z : list (Q * Q)) : list (float * float) :=
  map (fun r => (num (fst r), num (snd r))) z.

End ReturnSpec.

(** Forward fill as section 3 words it: the price of a day is the last
    price observed on or before it, back to the first day of the covered
    range. *)
Module FillSpec.



(** Every row has one cell per column. *)
Definition rectangular {L} (df : DataFrame L) : Prop :=
  Forall (fun lr => List.length (snd lr) = List.length (columns df)) (rows df).



End FillSpec.

(** The pieces of a reindexed and filled frame. *)
Module Fill.





End Fill.

(** A classifier that refuses missing values. *)
Module Guards.

(** An array with a NaN cell. *)
Definition has_nan (X : list (list float)) : bool :=
  existsb (fun r => negb (row_complete r)) X.

(** A [fit] that refuses an array with a NaN cell. *)
Definition guarded_fit {classifier : Type}
    (fit : list (list float) -> list bool -> result classifier)
    (X : list (list float)) (y : list bool) : result classifier :=
  if has_nan X then Raise ValueError else fit X y.

(** A [predict] that refuses an array with a NaN cell. *)
Definition guarded_predict {classifier : Type}
    (predict : classifier -> list (list float) -> result (list bool))
    (clf : classifier) (X : list (list float)) : result (list bool) :=
  if has_nan X then Raise ValueError else predict clf X.

End Guards.

(** Concrete inputs. *)
Module Scenarios.

(** A data set of two rows; [fixed_split] below trains on the first and holds
    out the second. *)
Definition two_rows : DataFrame string :=
  mkDF ["Unix"; "Ticker"; "Price"; "stock_p_change"; "SP500";
        "SP500_p_change"; "Market Cap"]%string
       [("2010-01-04"%string,
          [num 1262563200; num 1; num 30; num 25; num 1100; num 5; num 1000]);
        ("2010-01-05"%string,
          [num 1262649600; num 2; num 40; num 3; num 1101; num 5; num 2000])].

(** Two rows of a data set: the first beats the benchmark by 15 points, the
    second by 7. *)
Definition two_labelled_rows : DataFrame string :=
  mkDF ["Unix"; "Ticker"; "Price"; "stock_p_change"; "SP500";
        "SP500_p_change"; "Market Cap"]%string
       [("2010-01-04"%string,
          [num 1262563200; num 1; num 30; num 20; num 1100; num 5; num 1000]);
        ("2010-01-05"%string,
          [num 1262649600; num 2; num 40; num 12; num 1101; num 5; num 2000])].

(** A page that labels the field "Average Volume (3 month)". *)
Definition renamed_page : string :=
  "<td>Average Volume (3 month)</td><td>1,234</td> <td>Beta:</td><td>N/A</td>".



(** A week of quotes around two new years: Friday 2010-01-01 is day 14610
    and Monday 2010-01-04 day 14613; Friday 2010-12-31 is day 14974 and
    Monday 2011-01-03 day 14977. *)
Definition sp500_quotes : DataFrame Z :=
  mkDF ["Adj Close"%string]
       [(14610, [num 100]); (14613, [num 101]);
        (14974, [num 110]); (14977, [num 111])].

Definition stock_quotes : DataFrame Z :=
  mkDF ["AAPL"%string]
       [(14610, [num 30]); (14613, [num 31]);
        (14974, [num 45]); (14977, [num 46])].

(** File names of two snapshots, at midnight of 2010-01-01 and of
    2010-01-04. *)
Definition strptime_two (file : string) : result datetime :=
  if String.eqb file "20100101000000.html" then Ok (mkDatetime 14610 0)
  else if String.eqb file "20100104000000.html" then Ok (mkDatetime 14613 0)
  else Raise ValueError.

(** The quotes above after [preprocess_price_data]. *)
Definition filled_quotes : DataFrame Z * DataFrame Z :=
  match output (ParsingKeystats.preprocess_price_data
                  (Ok sp500_quotes) (Ok stock_quotes)) with
  | Ok frames => frames
  | Raise _ => (empty_frame, empty_frame)
  end.

(** Time zones. [utc] has no offset. [new_york] is the zone of New York
    from 2010 to 2012: five hours behind UTC, and four while daylight saving
    lasts, from 2010-03-14 07:00 UTC to 2010-11-07 06:00 UTC, from
    2011-03-13 07:00 UTC to 2011-11-06 06:00 UTC and from 2012-03-11 07:00
    UTC to 2012-11-04 06:00 UTC. *)
Definition utc (unix_time : Z) : Z := 0.

Definition new_york (unix_time : Z) : Z :=
  if ((1268550000 <=? unix_time) && (unix_time <? 1289109600))
     || ((1299999600 <=? unix_time) && (unix_time <? 1320559200))
     || ((1331449200 <=? unix_time) && (unix_time <? 1352008800))
  then -14400 else -18000.

(** [time.mktime] in a zone whose clocks use the offsets [offsets]: the
    instant at which the local clocks show [t], the first offset that fits
    being taken when they show it twice; a time that the local clocks skip
    is read with the last offset. *)
Definition mktime_in (utc_offset : Z -> Z) (offsets : list Z) (t : datetime)
  : Z :=
  let local := date t * 86400 + second_of_day t in
  match find (fun o => utc_offset (local - o) =? o) offsets with
  | Some o => local - o
  | None => local - last offsets 0
  end.

Definition mktime_utc : datetime -> Z := mktime_in utc [0].

Definition mktime_new_york : datetime -> Z :=
  mktime_in new_york [-14400; -18000].



(** A pipeline whose generator always draws row 0 for training and row 1 for
    testing, and whose classifier predicts no row positive. *)
Definition fixed_split (_ : unit) (_ : nat) (_ : Q)
  : result (list nat * list nat) :=
  Ok ([0%nat], [1%nat]).

Definition fit_nothing (_ : list (list float)) (_ : list bool) : result unit :=
  Ok tt.

Definition predict_negative (_ : unit) (X : list (list float))
  : result (list bool) :=
  Ok (map (fun _ => false) X).

(** A data set whose second row lacks a feature. *)
Definition row_with_gap : DataFrame string :=
  mkDF ["Unix"; "Ticker"; "Price"; "stock_p_change"; "SP500";
        "SP500_p_change"; "Market Cap"]%string
       [("2010-01-04"%string,
          [num 1262563200; num 1; num 30; num 20; num 1100; num 5; num 1000]);
        ("2010-01-05"%string,
          [num 1262649600; num 2; num 40; num 12; num 1101; num 5; NaN])].

End Scenarios.

(** Further specification-side definitions and scenarios. *)
Module MoreScenarios.


(** A price is quoted as zero on [current_date] and something is quoted on
    [later_date]. *)
Definition zero_price (df : DataFrame Z) (column : string)
    (current_date later_date : Z) : Prop :=
  exists (p0 : Q) (p1 : float),
    loc df current_date column = Ok (num p0)
    /\ (p0 == 0)%Q
    /\ loc df later_date column = Ok p1.


(** [needle] occurs in [s]. *)
Definition occurs (needle s : string) : Prop :=
  exists before after : string, s = (before ++ needle ++ after)%string.

(** A pattern without a capturing group. *)
Fixpoint no_group (r : Regex.regex) : bool :=
  match r with
  | Regex.Group _ _ => false
  | Regex.Cat r1 r2 | Regex.Alt r1 r2 => no_group r1 && no_group r2
  | Regex.Opt r1 | Regex.Star r1 | Regex.LazyStar r1 => no_group r1
  | _ => true
  end.

(** No name occurs twice. *)
Fixpoint distinct (l : list string) : bool :=
  match l with
  | [] => true
  | x :: l' => negb (existsb (String.eqb x) l') && distinct l'
  end.

(** The value list that [parse_html] returns for what reading a file gave. *)
Definition parsed (data_string_to_float : string -> result entry)
    (body : result string) : list entry :=
  match output (CurrentData.parse_html data_string_to_float body) with
  | Ok value_list => value_list
  | Raise _ => []
  end.

(** The row of the forward sample for one file, before and after
    [replace]: zeros in the label columns, the ticker of the file name, the
    parsed values. *)
Definition sample_row (data_string_to_float : string -> result entry)
    (file : string * result string) : list Forward.cell :=
  [Forward.CInt 0; Forward.CInt 0;
   Forward.CStr (upper (Forward.before_first ".html" (fst file)));
   Forward.CInt 0; Forward.CInt 0; Forward.CInt 0; Forward.CInt 0]
  ++ map Forward.entry_cell (parsed data_string_to_float (snd file)).

(** A classifier that predicts every row positive. *)
Definition predict_positive (_ : unit) (X : list (list float))
  : result (list bool) :=
  Ok (map (fun _ => true) X).

(** Benchmark quotes with a zero on day 14610. *)
Definition zero_quotes : DataFrame Z :=
  mkDF ["Adj Close"%string] [(14610, [num 0]); (14975, [num 110])].

Definition one_quote : DataFrame Z :=
  mkDF ["AAPL"%string] [(14610, [num 30]); (14975, [num 45])].

(** Quotes of three days for three tickers: the first has no quote at
    all, the second starts on the second day, the third misses the last. *)
Definition downloaded : DataFrame Z :=
  mkDF ["DEAD"; "LATE"; "GAP"]%string
       [(14610, [NaN; NaN; num 7]);
        (14611, [NaN; num 20; num 8]);
        (14612, [NaN; num 21; NaN])].

End MoreScenarios.

(* ===================================================================== *)
(** * Facts about the Python values                                       *)
(* ===================================================================== *)

Module PyFacts.

Lemma sum_bool_from (bs : list bool) (a : Z) :
  fold_left (fun acc (b : bool) => if b then acc + 1 else acc) bs a
  = a + Z.of_nat (List.length (filter (fun b => b) bs)).
Proof.
  revert a. induction bs as [|b bs IH]; intros a; simpl.
  - lia.
  - rewrite IH. destruct b; simpl; lia.
Qed.

Lemma sum_bool_count (bs : list bool) :
  sum_bool bs = Z.of_nat (List.length (filter (fun b => b) bs)).
Proof. unfold sum_bool. rewrite sum_bool_from. lia. Qed.

Lemma sum_bool_nonneg (bs : list bool) : 0 <= sum_bool bs.
Proof. rewrite sum_bool_count. lia. Qed.

Lemma sum_bool_zero_iff (bs : list bool) :
  sum_bool bs = 0 <-> Forall (fun b => b = false) bs.
Proof.
  rewrite sum_bool_count. induction bs as [|b bs IH]; simpl.
  - split; auto.
  - destruct b; simpl.
    + split; [lia | intros H; inversion H; discriminate].
    + rewrite IH. split; [auto | intros H; now inversion H].
Qed.

Lemma py_sum_from (xs : list Q) (a : Q) :
  fold_left fadd (map num xs) (num a) = num (fold_left Qplus xs a).
Proof.
  revert a. induction xs as [|x xs IH]; intros a; simpl; [reflexivity|].
  apply IH.
Qed.

Lemma fold_left_Qplus (xs : list Q) (a : Q) :
  (fold_left Qplus xs a == a + fold_right Qplus 0 xs)%Q.
Proof.
  revert a. induction xs as [|x xs IH]; intros a; simpl.
  - ring.
  - rewrite IH. ring.
Qed.

Lemma mask_select_length {A} (a : list A) (mask : list bool) :
  is_ok (mask_select a mask) = true <-> List.length a = List.length mask.
Proof.
  revert mask. induction a as [|x a IH]; intros [|b mask]; simpl;
    try (split; [discriminate | discriminate]); try tauto.
  specialize (IH mask). destruct (mask_select a mask); simpl in *.
  - split; intros; [f_equal; now apply IH | reflexivity].
  - split; [discriminate | intros H; injection H as H; now apply IH in H].
Qed.

End PyFacts.

(* ===================================================================== *)
(** * Facts about frames                                                  *)
(* ===================================================================== *)

Module FrameFacts.

Lemma row_complete_iff (r : list float) :
  row_complete r = true <-> forall c, In c r -> isna c = false.
Proof.
  unfold row_complete. rewrite forallb_forall.
  split; intros H c Hc; specialize (H c Hc);
    destruct (isna c); simpl in *; congruence.
Qed.

Lemma dropna_rows {L} (data_df : DataFrame L) (lr : L * list float) :
  In lr (rows (dropna data_df))
  <-> In lr (rows data_df) /\ forall c, In c (snd lr) -> isna c = false.
Proof.
  unfold dropna. simpl. rewrite filter_In, row_complete_iff. tauto.
Qed.

End FrameFacts.

(* ===================================================================== *)
(** * The report of realised returns (backtesting.py)                     *)
(* ===================================================================== *)

Module BacktestingFacts.

Import Backtesting ReturnSpec PyFacts.

Lemma mask_select_positive {A} (y_pred : list bool) (z : list A) :
  List.length z = List.length y_pred ->
  mask_select z y_pred = Ok (predicted_positive y_pred z).
Proof.
  revert y_pred. induction z as [|r z IH]; intros [|b y_pred] H;
    simpl in *; try discriminate; [reflexivity|].
  injection H as H. rewrite (IH _ H). simpl.
  unfold predicted_positive. destruct b; reflexivity.
Qed.

Lemma predicted_positive_floats (y_pred : list bool) (z : list (Q * Q)) :
  predicted_positive y_pred (floats z) = floats (predicted_positive y_pred z).
Proof.
  unfold predicted_positive, floats.
  revert z. induction y_pred as [|b y_pred IH]; intros [|r z]; simpl; auto.
  destruct b; simpl; now rewrite IH.
Qed.

Lemma predicted_positive_length {A} (y_pred : list bool) (z : list A) :
  List.length z = List.length y_pred ->
  Z.of_nat (List.length (predicted_positive y_pred z)) = sum_bool y_pred.
Proof.
  rewrite sum_bool_count. unfold predicted_positive.
  revert y_pred. induction z as [|r z IH]; intros [|b y_pred] H;
    simpl in *; try discriminate; [reflexivity|].
  injection H as H. specialize (IH _ H).
  destruct b; simpl; rewrite ?length_map in *; lia.
Qed.

(** The growth factors of one column of the picked rows, summed by the
    builtin [sum]. *)
Lemma sum_of_growth (col : Q * Q -> Q) (fcol : float * float -> float)
    (picked : list (Q * Q)) :
  (forall r, fcol (num (fst r), num (snd r)) = num (col r)) ->
  exists g : Q,
    py_sum (map (fun r => fadd (num 1) (fdiv (fcol r) (num 100))) (floats picked))
    = num g
    /\ (g == total (map growth (map col picked)))%Q.
Proof.
  intros Hcol.
  exists (fold_left Qplus (map growth (map col picked)) 0%Q). split.
  - unfold py_sum. rewrite <- py_sum_from. f_equal.
    unfold floats. rewrite !map_map. apply map_ext. intros r.
    rewrite Hcol. reflexivity.
  - rewrite fold_left_Qplus. unfold total. ring.
Qed.

Lemma percentage_of_quotient (g t : Q) (n : Z) :
  (g == t)%Q -> 0 < n ->
  exists p : Q,
    fmul (num 100) (fsub (fdiv (num g) (num (inject_Z n))) (num 1)) = num p
    /\ (p == percentage (t / inject_Z n))%Q.
Proof.
  intros Hg Hn.
  exists (100 * (g / inject_Z n - 1))%Q. split.
  - unfold fdiv, num.
    assert (Hz : Qeq_bool (inject_Z n) 0 = false).
    { destruct (Qeq_bool (inject_Z n) 0) eqn:E; [|reflexivity].
      apply Qeq_bool_eq in E. unfold Qeq in E. simpl in E. lia. }
    rewrite Hz. reflexivity.
  - unfold percentage. rewrite Hg. reflexivity.
Qed.

(** C2. With at least one positive prediction, [calculate_returns] reports
    the number of rows predicted positive, the average of the growth factors
    [1 + percent_change/100] of the ticker and of the benchmark over exactly
    those rows, each converted back to a percentage, and their difference,
    and it logs nothing. In particular, for two rows both predicted positive
    with ticker returns 10 and 4 and benchmark returns 2 and 1 it reports 2
    trades, 7 percent, 1.5 percent and 5.5 percentage points. *)
Theorem calculate_returns_averages :
  (forall (y_pred : list bool) (z_test : list (Q * Q)),
      0 < sum_bool y_pred ->
      List.length z_test = List.length y_pred ->
      let picked := predicted_positive y_pred z_test in
      exists s m : Q,
        calculate_returns y_pred (floats z_test)
        = ([], Ok [num (inject_Z (Z.of_nat (List.length picked)));
                   num s; num m; num (s - m)])
        /\ (s == average_return (map fst picked))%Q
        /\ (m == average_return (map snd picked))%Q)
  /\ (exists n s m o : Q,
        calculate_returns [true; true] (floats [(10, 2); (4, 1)]%Q)
        = ([], Ok [num n; num s; num m; num o])
        /\ (n == 2)%Q /\ (s == 7)%Q /\ (m == 1.5)%Q /\ (o == 5.5)%Q).
Proof.
  split.
  - intros y_pred z_test Hpos Hlen picked.
    unfold calculate_returns.
    destruct (Z.leb_spec (sum_bool y_pred) 0) as [Hle|_]; [lia|].
    assert (Hlen' : List.length (floats z_test) = List.length y_pred)
      by (unfold floats; now rewrite length_map).
    rewrite (mask_select_positive _ _ Hlen'), predicted_positive_floats.
    fold picked. cbv beta iota zeta delta [bind].
    assert (Hn : Z.of_nat (List.length picked) = sum_bool y_pred)
      by (apply predicted_positive_length; exact Hlen).
    destruct (sum_of_growth fst fst picked) as (gs & Es & Hs); [reflexivity|].
    destruct (sum_of_growth snd snd picked) as (gm & Em & Hm); [reflexivity|].
    rewrite Es, Em.
    destruct (percentage_of_quotient _ _ _ Hs Hpos) as (s & E1 & H1).
    destruct (percentage_of_quotient _ _ _ Hm Hpos) as (m & E2 & H2).
    rewrite E1, E2.
    exists s, m. split; [|split].
    + unfold liftM. rewrite Hn. reflexivity.
    + rewrite H1. unfold average_return, average.
      rewrite !length_map, Hn. reflexivity.
    + rewrite H2. unfold average_return, average.
      rewrite !length_map, Hn. reflexivity.
  - eexists _, _, _, _. split; [vm_compute; reflexivity|].
    repeat split; reflexivity.
Qed.

(** The scenario of section 8 as an instance of the general statement. *)
Lemma calculate_returns_averages_witness :
  0 < sum_bool [true; true]
  /\ exists s m : Q,
       calculate_returns [true; true] (floats [(10, 2); (4, 1)]%Q)
       = ([], Ok [num (inject_Z 2); num s; num m; num (s - m)])
       /\ (s == 7)%Q /\ (m == 1.5)%Q.
Proof.
  split; [reflexivity|].
  destruct (proj1 calculate_returns_averages [true; true]
              [(10, 2); (4, 1)]%Q) as (s & m & E & Hs & Hm);
    [reflexivity | reflexivity |].
  exists s, m. split; [exact E|]. split.
  - rewrite Hs. vm_compute. reflexivity.
  - rewrite Hm. vm_compute. reflexivity.
Defined.

End BacktestingFacts.

Module NoTrades.

Import Backtesting PyFacts.

Section Pipeline.

Variable rng : Type.
Variable RandomState : Z -> rng.
Variable shuffle_split : rng -> nat -> Q -> result (list nat * list nat).
Variable classifier : Type.
Variable fit : list (list float) -> list bool -> result classifier.
Variable predict : classifier -> list (list float) -> result (list bool).

(** The degenerate return of [calculate_returns]: a warning and three
    zeros, whatever the returns are. *)
Lemma calculate_returns_no_trades (y_pred : list bool)
    (z_test : list (float * float)) :
  sum_bool y_pred = 0 ->
  calculate_returns y_pred z_test
  = ([Log WARNING "No stocks predicted!"], Ok [num 0; num 0; num 0]).
Proof.
  intros H. unfold calculate_returns. rewrite H. reflexivity.
Qed.

(** C1 (what the code does). When the classifier predicts no row of the
    held-out set positive, [calculate_returns] logs its warning and returns
    three zeros, and [backtest], which unpacks four values from that return,
    raises a [ValueError]: the run ends in an exception instead of a report. *)
Theorem backtest_no_trades_raises {L} (global_rng : rng)
    (data_df : DataFrame L)
    (X_train X_test : list (list float)) (y_train y_test : list bool)
    (z_train z_test : list (float * float))
    (clf : classifier) (y_pred : list bool) :
  empty (dropna data_df) = false ->
  split_data rng RandomState shuffle_split global_rng (dropna data_df) (2 # 10)
  = Ok (X_train, X_test, y_train, y_test, z_train, z_test) ->
  fit X_train y_train = Ok clf ->
  predict clf X_test = Ok y_pred ->
  sum_bool y_pred = 0 ->
  output (calculate_returns y_pred z_test) = Ok [num 0; num 0; num 0]
  /\ unpack4 [num 0; num 0; num 0] = Raise ValueError
  /\ output (backtest rng RandomState shuffle_split classifier fit predict
            global_rng (Ok data_df)) = Raise ValueError
  /\ In (Log WARNING "No stocks predicted!")
        (records (backtest rng RandomState shuffle_split classifier fit predict
            global_rng (Ok data_df))).
Proof.
  intros Hne Hsplit Hfit Hpred Hzero.
  pose proof (calculate_returns_no_trades y_pred z_test Hzero) as Hret.
  split; [now rewrite Hret|]. split; [reflexivity|].
  unfold backtest, load_data.
  cbn [bindM logM retM liftM]. rewrite Hne.
  rewrite Hsplit. unfold train_model, evaluate_model.
  rewrite Hfit. cbn [bindM liftM]. rewrite Hpred.
  cbn [bindM liftM bind logM]. rewrite Hret.
  cbn. split; [reflexivity|]. tauto.
Qed.

End Pipeline.

Lemma backtest_no_trades_raises_witness :
  output (backtest unit (fun _ => tt) Scenarios.fixed_split unit
            Scenarios.fit_nothing Scenarios.predict_negative tt
            (Ok Scenarios.two_rows))
  = Raise ValueError.
Proof.
  refine (proj1 (proj2 (proj2
    (backtest_no_trades_raises unit (fun _ => tt) Scenarios.fixed_split unit
       Scenarios.fit_nothing Scenarios.predict_negative tt Scenarios.two_rows
       [[num 1000]] [[num 2000]] [true] [false]
       [(num 25, num 5)] [(num 3, num 5)] tt [false] _ _ _ _ _))));
    reflexivity.
Defined.

End NoTrades.

(* ===================================================================== *)
(** * Labels, the split and the rows that reach the classifier            *)
(* ===================================================================== *)

Module LabelFacts.

Import Backtesting.

Lemma outperforms_iff (threshold s m : Q) :
  outperforms threshold (num s) (num m) = true <-> (threshold <= s - m)%Q.
Proof. unfold outperforms. simpl. apply Qle_bool_iff. Qed.

Lemma status_calc_nth (stock sp500 : list float) (threshold : Q) (i : nat)
    (s m : float) :
  nth_error stock i = Some s ->
  nth_error sp500 i = Some m ->
  nth_error (status_calc stock sp500 threshold) i
  = Some (outperforms threshold s m).
Proof.
  revert sp500 i. induction stock as [|s0 stock IH]; intros [|m0 sp500] [|i];
    simpl; try discriminate.
  - intros [= ->] [= ->]. reflexivity.
  - apply IH.
Qed.

(** C7. The label of a row is true exactly when the ticker's forward percent
    change minus the benchmark's is at least the threshold; [split_data]
    labels every row of the data set this way with threshold 10, which is
    also the default of [OUTPERFORMANCE]. A ticker at +20 against a benchmark
    at +5 is labelled true, a ticker at +12 against +5 false. *)
Theorem outperformance_label :
  (forall threshold s m : Q,
      outperforms threshold (num s) (num m) = true <-> (threshold <= s - m)%Q)
  /\ (forall L (data_df : DataFrame L) (stock sp500 : list float),
        get_column data_df "stock_p_change" = Ok stock ->
        get_column data_df "SP500_p_change" = Ok sp500 ->
        labels data_df = Ok (status_calc stock sp500 10)
        /\ forall (i : nat) (s m : Q),
             nth_error stock i = Some (num s) ->
             nth_error sp500 i = Some (num m) ->
             (nth_error (status_calc stock sp500 10) i = Some true
              <-> (10 <= s - m)%Q))
  /\ StockPrediction.OUTPERFORMANCE None = 10
  /\ outperforms 10 (num 20) (num 5) = true
  /\ outperforms 10 (num 12) (num 5) = false.
Proof.
  split; [exact outperforms_iff|]. split; [|repeat split].
  intros L data_df stock sp500 Hs Hm. split.
  - unfold labels. rewrite Hs, Hm. reflexivity.
  - intros i s m Hi Hj.
    rewrite (status_calc_nth _ _ _ _ _ _ Hi Hj), <- outperforms_iff.
    split; [now intros [= ->] | now intros ->].
Qed.

Lemma outperformance_label_witness :
  labels Scenarios.two_labelled_rows = Ok [true; false].
Proof.
  exact (proj1 (proj1 (proj2 outperformance_label) string
                  Scenarios.two_labelled_rows
                  [num 20; num 12] [num 5; num 5] eq_refl eq_refl)).
Defined.

End LabelFacts.

Module SplitFacts.

Import Backtesting.

Section Pipeline.

Variable rng : Type.
Variable RandomState : Z -> rng.
Variable shuffle_split : rng -> nat -> Q -> result (list nat * list nat).

Lemma train_test_split_seeded {A B C} (g1 g2 : rng) (X : list A) (y : list B)
    (z : list C) (test_size : Q) (seed : Z) :
  train_test_split rng RandomState shuffle_split g1 X y z test_size (Some seed)
  = train_test_split rng RandomState shuffle_split g2 X y z test_size (Some seed).
Proof. reflexivity. Qed.

Lemma bind_ok {A B} (r : result A) (k : A -> result B) (b : B) :
  bind r k = Ok b -> exists a, r = Ok a /\ k a = Ok b.
Proof. destruct r as [a|e]; simpl; [eauto | discriminate]. Qed.

(** Peel one [bind] off a computation known to return. *)
Ltac bind_inv H x Hx := apply bind_ok in H as (x & Hx & H).

(** The six arrays of a split are the rows that the generator seeded with 0
    draws. *)
Lemma split_data_rows {L} (g : rng) (data_df : DataFrame L) (test_size : Q)
    X_train X_test y_train y_test z_train z_test :
  split_data rng RandomState shuffle_split g data_df test_size
  = Ok (X_train, X_test, y_train, y_test, z_train, z_test) ->
  exists y z train test,
    labels data_df = Ok y /\ returns data_df = Ok z
    /\ shuffle_split (RandomState 0)
         (List.length (rows data_df)) test_size = Ok (train, test)
    /\ take_rows (feature_values data_df) train = Ok X_train
    /\ take_rows (feature_values data_df) test = Ok X_test
    /\ take_rows y train = Ok y_train /\ take_rows y test = Ok y_test
    /\ take_rows z train = Ok z_train /\ take_rows z test = Ok z_test.
Proof.
  intros H. unfold Backtesting.split_data in H.
  bind_inv H y Hy. bind_inv H z Hz.
  unfold Backtesting.train_test_split in H.
  destruct (negb _); [discriminate|].
  apply bind_ok in H as ([train test] & Hs & H). cbv zeta in H.
  bind_inv H a1 H1. bind_inv H a2 H2. bind_inv H a3 H3.
  bind_inv H a4 H4. bind_inv H a5 H5. bind_inv H a6 H6.
  injection H as -> -> -> -> -> ->.
  exists y, z, train, test.
  unfold feature_values in *. rewrite length_map in Hs.
  repeat split; assumption.
Qed.

(** C9. The partition that [split_data] returns is a function of the data
    set and the test fraction alone, the seed being fixed at 0: it does not
    depend on the state of the process-wide random generator, so two runs on
    the same input return the same six arrays; and the rows of each array
    are those that the generator seeded with 0 draws. *)
Theorem split_data_deterministic :
  (forall L (g1 g2 : rng) (data_df : DataFrame L) (test_size : Q),
      split_data rng RandomState shuffle_split g1 data_df test_size
      = split_data rng RandomState shuffle_split g2 data_df test_size)
  /\ (forall L (g : rng) (data_df : DataFrame L) (test_size : Q)
        X_train X_test y_train y_test z_train z_test,
        split_data rng RandomState shuffle_split g data_df test_size
        = Ok (X_train, X_test, y_train, y_test, z_train, z_test) ->
        exists train test,
          shuffle_split (RandomState 0)
            (List.length (rows data_df)) test_size = Ok (train, test)
          /\ take_rows (feature_values data_df) train = Ok X_train
          /\ take_rows (feature_values data_df) test = Ok X_test
          /\ (y <- labels data_df ;; take_rows y train) = Ok y_train
          /\ (y <- labels data_df ;; take_rows y test) = Ok y_test
          /\ (z <- returns data_df ;; take_rows z train) = Ok z_train
          /\ (z <- returns data_df ;; take_rows z test) = Ok z_test).
Proof.
  split.
  - intros L g1 g2 data_df test_size. unfold Backtesting.split_data.
    destruct (labels data_df) as [y|e]; [|reflexivity].
    destruct (returns data_df) as [z|e]; [|reflexivity].
    apply train_test_split_seeded.
  - intros L g data_df test_size X_train X_test y_train y_test z_train z_test H.
    apply split_data_rows in H
      as (y & z & train & test & Hy & Hz & Hs & H1 & H2 & H3 & H4 & H5 & H6).
    exists train, test. rewrite Hy, Hz. cbn [bind].
    repeat split; assumption.
Qed.

End Pipeline.

(** Two runs that differ in the state of the process-wide generator (here a
    counter) split the same rows. *)
Lemma split_data_deterministic_witness :
  split_data nat (fun seed => Z.to_nat seed)
    (fun g n _ => Ok ([g], [S g])) 5%nat Scenarios.two_rows (2 # 10)
  = Ok ([[num 1000]], [[num 2000]], [true], [false],
        [(num 25, num 5)], [(num 3, num 5)])
  /\ split_data nat (fun seed => Z.to_nat seed)
       (fun g n _ => Ok ([g], [S g])) 5%nat Scenarios.two_rows (2 # 10)
     = split_data nat (fun seed => Z.to_nat seed)
         (fun g n _ => Ok ([g], [S g])) 7%nat Scenarios.two_rows (2 # 10).
Proof.
  split; [reflexivity|].
  exact (proj1 (split_data_deterministic nat (fun seed => Z.to_nat seed)
                  (fun g n _ => Ok ([g], [S g])))
           string 5%nat 7%nat Scenarios.two_rows (2 # 10)).
Defined.

End SplitFacts.

Module MissingValueFacts.

Import Backtesting Guards FrameFacts.

Lemma row_complete_skipn (k : nat) (r : list float) :
  row_complete r = true -> row_complete (skipn k r) = true.
Proof.
  rewrite !row_complete_iff. intros H c Hc. apply H.
  rewrite <- (firstn_skipn k r). apply in_or_app. now right.
Qed.

Lemma has_nan_false_iff (X : list (list float)) :
  has_nan X = false <-> forall r, In r X -> row_complete r = true.
Proof.
  unfold has_nan. induction X as [|r0 X IH]; simpl.
  - split; [intros _ r [] | reflexivity].
  - rewrite orb_false_iff, IH, negb_false_iff. split.
    + intros [H0 H] r [<-|Hr]; auto.
    + intros H. split; [apply H; now left | intros r Hr; apply H; now right].
Qed.

Lemma feature_values_dropna {L} (data_df : DataFrame L) :
  has_nan (feature_values (dropna data_df)) = false.
Proof.
  apply has_nan_false_iff. intros r Hr. unfold feature_values in Hr.
  apply in_map_iff in Hr as (lr & <- & Hlr).
  apply row_complete_skipn, row_complete_iff. now apply dropna_rows in Hlr.
Qed.

Lemma take_rows_has_nan (X : list (list float)) (idx : list nat)
    (Y : list (list float)) :
  has_nan X = false -> take_rows X idx = Ok Y -> has_nan Y = false.
Proof.
  rewrite !has_nan_false_iff. intros HX. revert Y.
  induction idx as [|i idx IH]; simpl; intros Y H.
  - injection H as <-. intros r [].
  - destruct (nth_error X i) as [r0|] eqn:E; [|discriminate].
    destruct (take_rows X idx) as [Y'|e]; simpl in H; [|discriminate].
    injection H as <-. intros r [<-|Hr].
    + apply HX. eapply nth_error_In; eauto.
    + now apply (IH Y').
Qed.

Section Pipeline.

Variable rng : Type.
Variable RandomState : Z -> rng.
Variable shuffle_split : rng -> nat -> Q -> result (list nat * list nat).
Variable classifier : Type.
Variable fit : list (list float) -> list bool -> result classifier.
Variable predict : classifier -> list (list float) -> result (list bool).

Lemma split_data_has_nan {L} (g : rng) (data_df : DataFrame L) (test_size : Q)
    X_train X_test y_train y_test z_train z_test :
  split_data rng RandomState shuffle_split g (dropna data_df) test_size
  = Ok (X_train, X_test, y_train, y_test, z_train, z_test) ->
  has_nan X_train = false /\ has_nan X_test = false.
Proof.
  intros H.
  apply SplitFacts.split_data_rows
    in H as (y & z & train & test & _ & _ & _ & H1 & H2 & _).
  pose proof (feature_values_dropna data_df) as HX.
  split; eapply take_rows_has_nan; eauto.
Qed.

(** C10. [load_data] keeps exactly the rows of the file without a missing
    cell, in both modules, so a row with a missing value is dropped before
    anything else happens; and no missing value reaches the classifier: a
    [fit] and a [predict] that refuse an array with a NaN cell leave every
    run of [backtest] unchanged, and the training features of
    stock_prediction.py have no NaN cell. *)
Theorem no_missing_value_reaches_classifier :
  (forall L (data_df : DataFrame L),
      Backtesting.load_data (Ok data_df) = retM (dropna data_df)
      /\ StockPrediction.load_data (Ok data_df) = retM (dropna data_df)
      /\ forall lr, In lr (rows (dropna data_df))
           <-> In lr (rows data_df)
               /\ forall c, In c (snd lr) -> isna c = false)
  /\ (forall L (g : rng) (csv : result (DataFrame L)),
        backtest rng RandomState shuffle_split classifier
          (guarded_fit fit) (guarded_predict predict) g csv
        = backtest rng RandomState shuffle_split classifier fit predict g csv)
  /\ (forall L (csv : result (DataFrame L)) (X_train : list (list float)),
        output (StockPrediction.training_features csv) = Ok (Some X_train) ->
        has_nan X_train = false).
Proof.
  split; [|split].
  - intros L data_df. split; [reflexivity|]. split; [reflexivity|].
    intros lr. apply dropna_rows.
  - intros L g csv. unfold backtest.
    destruct csv as [data_df|e]; [|reflexivity].
    unfold Backtesting.load_data. cbn [bindM logM retM].
    destruct (empty (dropna data_df)); [reflexivity|].
    destruct (split_data rng RandomState shuffle_split g (dropna data_df) (2 # 10))
      as [[[[[[X_train X_test] y_train] y_test] z_train] z_test]|e] eqn:E;
      [|reflexivity].
    destruct (split_data_has_nan _ _ _ _ _ _ _ _ _ E) as [H1 H2].
    cbn [bindM liftM]. unfold train_model, evaluate_model.
    unfold guarded_fit at 1. rewrite H1.
    destruct (fit X_train y_train) as [clf|e]; [|reflexivity].
    unfold guarded_predict. rewrite H2. reflexivity.
  - intros L csv X_train. unfold StockPrediction.training_features.
    destruct csv as [data_df|e]; simpl.
    + destruct (empty (dropna data_df)); simpl; [discriminate|].
      intros [= <-]. apply feature_values_dropna.
    + discriminate.
Qed.

End Pipeline.

(** A file whose second row lacks a feature: the row is dropped on loading
    and the training features have no gap. *)
Lemma no_missing_value_reaches_classifier_witness :
  output (StockPrediction.training_features (Ok Scenarios.row_with_gap))
  = Ok (Some [[num 1000]])
  /\ has_nan [[num 1000]] = false.
Proof.
  split; [reflexivity|].
  apply (proj2 (proj2 (no_missing_value_reaches_classifier unit (fun _ => tt)
                         Scenarios.fixed_split unit Scenarios.fit_nothing
                         Scenarios.predict_negative))
           string (Ok Scenarios.row_with_gap)).
  reflexivity.
Defined.

End MissingValueFacts.

(* ===================================================================== *)
(** * The forward horizon (parsing_keystats.py)                           *)
(* ===================================================================== *)

Module HorizonFacts.

Import ParsingKeystats Scenarios.

(** What local clocks show [horizon_seconds] after an instant: the same as
    at the instant and 365 days more, moved by the change of the zone's
    offset between the two instants. *)
Lemma fromtimestamp_later (utc_offset : Z -> Z) (unix_time : Z) :
  fromtimestamp utc_offset (unix_time + horizon_seconds)
  = mkDatetime
      (date (fromtimestamp utc_offset unix_time) + 365
       + (second_of_day (fromtimestamp utc_offset unix_time)
          + (utc_offset (unix_time + horizon_seconds) - utc_offset unix_time))
         / 86400)
      ((second_of_day (fromtimestamp utc_offset unix_time)
        + (utc_offset (unix_time + horizon_seconds) - utc_offset unix_time))
       mod 86400).
Proof.
  unfold fromtimestamp, horizon_seconds. cbv zeta. cbn [date second_of_day].
  set (l := unix_time + utc_offset unix_time).
  set (o := utc_offset (unix_time + 31536000)).
  replace (unix_time + 31536000 + o)
    with (l mod 86400 + (o - utc_offset unix_time) + (l / 86400 + 365) * 86400)
    by (pose proof (Z.div_mod l 86400); lia).
  rewrite Z.div_add, Z_mod_plus_full by lia. f_equal. lia.
Qed.

Lemma second_of_day_range (utc_offset : Z -> Z) (unix_time : Z) :
  0 <= second_of_day (fromtimestamp utc_offset unix_time) < 86400.
Proof.
  unfold fromtimestamp. cbv zeta. cbn [second_of_day]. apply Z.mod_pos_bound. lia.
Qed.





End HorizonFacts.

(* ===================================================================== *)
(** * The fundamentals extractor                                          *)
(* ===================================================================== *)

Module ExtractorFacts.

Import Regex.

Lemma search_primary_empty (variable : string) :
  search (primary_regex variable) "" = None.
Proof. reflexivity. Qed.

Lemma search_alternate_empty :
  search (alternate_regex ">Average Volume (3 month)") "" = None.
Proof. reflexivity. Qed.

Section Normaliser.

Variable data_string_to_float : string -> result entry.

Local Notation "'feature_value_K'" :=
  (ParsingKeystats.feature_value data_string_to_float) (only parsing).
Local Notation "'feature_values_K'" :=
  (ParsingKeystats.feature_values data_string_to_float) (only parsing).
Local Notation "'parse_html_file'" :=
  (ParsingKeystats.parse_html_file data_string_to_float) (only parsing).
Local Notation "'feature_value_C'" :=
  (CurrentData.feature_value data_string_to_float) (only parsing).
Local Notation "'feature_values_C'" :=
  (CurrentData.feature_values data_string_to_float) (only parsing).
Local Notation "'parse_html'" :=
  (CurrentData.parse_html data_string_to_float) (only parsing).

Lemma feature_values_K_spec (source : string) (features : list string)
    (value_list : list entry) :
  feature_values_K source features = Ok value_list ->
  Forall2 (fun variable v => feature_value_K source variable = Ok v)
          features value_list.
Proof.
  revert value_list. induction features as [|variable rest IH];
    simpl; intros value_list H.
  - injection H as <-. constructor.
  - destruct (ParsingKeystats.feature_value _ source variable) as [v|e] eqn:E;
      simpl in H; [|discriminate].
    destruct (ParsingKeystats.feature_values _ source rest) as [vs|e];
      simpl in H; [|discriminate].
    injection H as <-. constructor; auto.
Qed.

Lemma feature_values_C_length (source : string) (features : list string)
    (value_list : list entry) :
  feature_values_C source features = Ok value_list ->
  List.length value_list = List.length features.
Proof.
  revert value_list. induction features as [|variable rest IH];
    simpl; intros value_list H.
  - injection H as <-. reflexivity.
  - destruct (CurrentData.feature_value _ source variable) as [v|e];
      simpl in H; [|discriminate].
    destruct (CurrentData.feature_values _ source rest) as [vs|e];
      simpl in H; [|discriminate].
    injection H as <-. simpl. f_equal. now apply IH.
Qed.

(** The two ways [parse_html_file] ends: the values of the fields, one by
    one, or a list of ["N/A"] when anything was raised. *)
Lemma parse_html_file_cases (file : result string) (features : list string) :
  (exists contents value_list,
      file = Ok contents
      /\ feature_values_K (remove_commas contents) features = Ok value_list
      /\ parse_html_file file features = retM value_list)
  \/ output (parse_html_file file features)
     = Ok (repeat N_A (List.length features)).
Proof.
  unfold ParsingKeystats.parse_html_file.
  destruct file as [contents|e]; simpl; [|now right].
  destruct (ParsingKeystats.feature_values _ _ features) as [vl|e] eqn:E;
    [left; eauto | now right].
Qed.

Lemma feature_value_K_unfound (source variable : string) :
  search (primary_regex variable) source = None ->
  (variable = "Avg Vol (3 month)"%string ->
   search (alternate_regex ">Average Volume (3 month)") source = None) ->
  feature_value_K source variable = Ok N_A.
Proof.
  intros H1 H2. unfold ParsingKeystats.feature_value, search_group1.
  rewrite H1. simpl.
  destruct (String.eqb_spec variable "Avg Vol (3 month)") as [E|_];
    [|reflexivity].
  rewrite (H2 E). reflexivity.
Qed.

Lemma nth_error_repeat {A} (a : A) (n i : nat) :
  (i < n)%nat -> nth_error (repeat a n) i = Some a.
Proof.
  revert i. induction n as [|n IH]; intros [|i] H; simpl; try lia; auto.
  apply IH. lia.
Qed.

(** C5. For every file (readable or not, empty or not) and every list of
    field names, [parse_html_file] returns a list with one entry per field
    name, and so does [parse_html] for its own list; a field for which no
    pattern matches is recorded as ["N/A"]; when the normaliser raises on a
    token, every field is; and on the empty text all fields are ["N/A"]. *)
Theorem extractor_output_length :
  (forall (file : result string) (features : list string),
      exists value_list,
        output (parse_html_file file features) = Ok value_list
        /\ List.length value_list = List.length features
        /\ forall contents i variable,
             file = Ok contents ->
             nth_error features i = Some variable ->
             search (primary_regex variable) (remove_commas contents) = None ->
             (variable = "Avg Vol (3 month)"%string ->
              search (alternate_regex ">Average Volume (3 month)")
                     (remove_commas contents) = None) ->
             nth_error value_list i = Some N_A)
  /\ (forall contents features e,
        feature_values_K (remove_commas contents) features = Raise e ->
        output (parse_html_file (Ok contents) features)
        = Ok (repeat N_A (List.length features)))
  /\ (forall features : list string,
        parse_html_file (Ok ""%string) features
        = retM (repeat N_A (List.length features)))
  /\ (forall file : result string,
        exists value_list,
          output (parse_html file) = Ok value_list
          /\ List.length value_list = List.length CurrentData.features)
  /\ (data_string_to_float "N/A" = Ok N_A ->
      parse_html (Ok ""%string)
      = retM (repeat N_A (List.length CurrentData.features))).
Proof.
  split; [|split; [|split; [|split]]].
  - intros file features.
    destruct (parse_html_file_cases file features)
      as [(contents & vl & Hf & Hv & Hp)|Hp].
    + exists vl. rewrite Hp. split; [reflexivity|].
      apply feature_values_K_spec in Hv. split.
      * symmetry. eapply Forall2_length; eauto.
      * intros contents' i variable Hc Hi H1 H2.
        rewrite Hf in Hc. injection Hc as <-.
        pose proof (feature_value_K_unfound _ _ H1 H2) as Hu.
        clear Hp Hf H1 H2. revert i Hi.
        induction Hv as [|x v xs vs Hx _ IH]; intros [|i] Hi; simpl in *;
          try discriminate.
        -- injection Hi as ->. congruence.
        -- now apply IH.
    + exists (repeat N_A (List.length features)). split; [exact Hp|].
      split; [apply repeat_length|].
      intros contents i variable _ Hi _ _. apply nth_error_repeat.
      apply nth_error_Some. congruence.
  - intros contents features e H. unfold ParsingKeystats.parse_html_file.
    simpl. rewrite H. reflexivity.
  - intros features. unfold ParsingKeystats.parse_html_file. simpl.
    replace (ParsingKeystats.feature_values data_string_to_float "" features)
      with (Ok (repeat N_A (List.length features))); [reflexivity|].
    induction features as [|variable rest IH]; simpl; [reflexivity|].
    rewrite <- IH.
    rewrite (feature_value_K_unfound "" variable (search_primary_empty _)
               (fun _ => search_alternate_empty)).
    reflexivity.
  - intros file. unfold CurrentData.parse_html.
    generalize CurrentData.features. intros features.
    destruct file as [contents|e]; cbn [bind].
    + destruct (CurrentData.feature_values data_string_to_float
                  (remove_commas contents) features) as [vl|e] eqn:E.
      * exists vl. split; [reflexivity|]. now apply feature_values_C_length in E.
      * eexists. split; [reflexivity|]. apply repeat_length.
    + eexists. split; [reflexivity|]. apply repeat_length.
  - intros Hna. unfold CurrentData.parse_html.
    generalize CurrentData.features. intros features. cbn [bind remove_commas].
    replace (CurrentData.feature_values data_string_to_float "" features)
      with (Ok (repeat N_A (List.length features))); [reflexivity|].
    induction features as [|variable rest IH]; [reflexivity|].
    cbn [CurrentData.feature_values List.length repeat]. rewrite <- IH.
    unfold CurrentData.feature_value.
    rewrite search_primary_empty. cbn [bind]. rewrite Hna. reflexivity.
Qed.

Lemma feature_value_K_primary_unfound (source variable : string) :
  search (primary_regex variable) source = None ->
  feature_value_K source variable
  = if String.eqb variable "Avg Vol (3 month)" then
      match (value <- search_group1
                        (alternate_regex ">Average Volume (3 month)") source ;;
             data_string_to_float value) with
      | Ok v => Ok v
      | Raise AttributeError => Ok N_A
      | Raise e => Raise e
      end
    else Ok N_A.
Proof.
  intros H. unfold ParsingKeystats.feature_value, search_group1 at 1.
  rewrite H. reflexivity.
Qed.

(** C8. In [parse_html_file], when the primary pattern of the field
    ["Avg Vol (3 month)"] finds nothing, the pattern anchored at
    [">Average Volume (3 month)"] is tried and the field records what the
    normaliser makes of the token it matched; when that finds nothing either
    the field is ["N/A"]; the field is ["N/A"] in no other case than these:
    both patterns failed, or the normaliser answered ["N/A"] (or an
    [AttributeError]) for the token of the alternate pattern. Every other
    field whose pattern finds nothing is ["N/A"] at once, whatever the
    alternate pattern would match. The entry of a field in the returned list
    is the value so computed. *)
Theorem alternate_anchor_retry :
  (forall source value v,
      search (primary_regex "Avg Vol (3 month)") source = None ->
      search_group1 (alternate_regex ">Average Volume (3 month)") source
      = Ok value ->
      data_string_to_float value = Ok v ->
      feature_value_K source "Avg Vol (3 month)" = Ok v)
  /\ (forall source,
        search (primary_regex "Avg Vol (3 month)") source = None ->
        search (alternate_regex ">Average Volume (3 month)") source = None ->
        feature_value_K source "Avg Vol (3 month)" = Ok N_A)
  /\ (forall source,
        search (primary_regex "Avg Vol (3 month)") source = None ->
        feature_value_K source "Avg Vol (3 month)" = Ok N_A ->
        search (alternate_regex ">Average Volume (3 month)") source = None
        \/ exists value,
             search_group1 (alternate_regex ">Average Volume (3 month)") source
             = Ok value
             /\ (data_string_to_float value = Ok N_A
                 \/ data_string_to_float value = Raise AttributeError))
  /\ (forall source variable,
        variable <> "Avg Vol (3 month)"%string ->
        search (primary_regex variable) source = None ->
        feature_value_K source variable = Ok N_A)
  /\ (forall contents features value_list i variable,
        feature_values_K (remove_commas contents) features = Ok value_list ->
        nth_error features i = Some variable ->
        parse_html_file (Ok contents) features = retM value_list
        /\ exists v, nth_error value_list i = Some v
             /\ feature_value_K (remove_commas contents) variable = Ok v).
Proof.
  split; [|split; [|split; [|split]]].
  - intros source value v H1 H2 H3.
    rewrite (feature_value_K_primary_unfound _ _ H1), String.eqb_refl, H2.
    cbn [bind]. rewrite H3. reflexivity.
  - intros source H1 H2. apply feature_value_K_unfound; auto.
  - intros source H1 H.
    rewrite (feature_value_K_primary_unfound _ _ H1), String.eqb_refl in H.
    unfold search_group1 in *.
    destruct (search (alternate_regex ">Average Volume (3 month)") source)
      as [caps|]; [right | now left].
    destruct (group 1 caps) as [value|]; cbn [bind] in H; [|discriminate].
    exists value. split; [reflexivity|].
    destruct (data_string_to_float value) as [v|[]]; try discriminate.
    + left. congruence.
    + now right.
  - intros source variable Hv H1. apply feature_value_K_unfound; [exact H1|].
    intros E. contradiction.
  - intros contents features value_list i variable Hv Hi. split.
    + unfold ParsingKeystats.parse_html_file. cbn [bind]. rewrite Hv.
      reflexivity.
    + apply feature_values_K_spec in Hv. revert i Hi.
      induction Hv as [|x v xs vs Hx _ IH]; intros [|i] Hi; simpl in *;
        try discriminate.
      * injection Hi as ->. eauto.
      * now apply IH.
Qed.

End Normaliser.

Lemma extractor_output_length_witness :
  CurrentData.parse_html Utils.data_string_to_float (Ok ""%string)
  = retM (repeat N_A 41).
Proof.
  apply (proj2 (proj2 (proj2 (proj2
           (extractor_output_length Utils.data_string_to_float))))).
  reflexivity.
Defined.

Lemma alternate_anchor_retry_witness :
  search (primary_regex "Avg Vol (3 month)") (remove_commas Scenarios.renamed_page) = None
  /\ ParsingKeystats.feature_value Utils.data_string_to_float
       (remove_commas Scenarios.renamed_page) "Avg Vol (3 month)" = Ok (Number 1234).
Proof.
  split; [reflexivity|].
  apply (proj1 (alternate_anchor_retry Utils.data_string_to_float)
           (remove_commas Scenarios.renamed_page) "1234"%string);
    reflexivity.
Defined.

End ExtractorFacts.

(* ===================================================================== *)
(** * Forward fill and price lookups                                      *)
(* ===================================================================== *)

Module PandasFacts.

Import FillSpec Fill.








Lemma ffill_from_labels {L} (prev : list float) (rs : list (L * list float)) :
  map fst (ffill_from prev rs) = map fst rs.
Proof.
  revert prev. induction rs as [|[l r] rs IH]; intros prev; simpl;
    [reflexivity | now rewrite IH].
Qed.


Lemma fill_row_nth (prev r : list float) (j : nat) :
  (j < List.length r)%nat ->
  nth j (fill_row prev r) NaN
  = if isna (nth j r NaN) then nth j prev NaN else nth j r NaN.
Proof.
  revert prev j. induction r as [|c r IH]; intros prev j H; simpl in *; [lia|].
  destruct j as [|j].
  - destruct prev; reflexivity.
  - rewrite IH by lia. destruct prev; simpl; [|reflexivity].
    destruct (isna (nth j r NaN)); [now destruct j | reflexivity].
Qed.







Section Filling.

Variable df : DataFrame Z.
Hypothesis Hrect : rectangular df.








End Filling.







End PandasFacts.

(* ===================================================================== *)
(** * The data set assembler (parsing_keystats.py)                        *)
(* ===================================================================== *)

Module AssemblerFacts.

Import ParsingKeystats Scenarios.

Lemma output_bindM {A B} (m : M A) (k : A -> M B) :
  output (bindM m k)
  = match output m with
    | Ok a => output (k a)
    | Raise e => Raise e
    end.
Proof.
  destruct m as [l [a|e]]; unfold output; cbn [bindM snd]; [|reflexivity].
  now destruct (k a).
Qed.



Section Assembler.

Variable data_string_to_float : string -> result entry.
Variable strptime : string -> result datetime.
Variable mktime : datetime -> Z.
Variable utc_offset : Z -> Z.



End Assembler.

(** The horizon of the first snapshot ends on Saturday 2011-01-01: the
    prices of the Friday before are used, and the row is kept. The horizon of
    the second ends after the last quote: no row. *)
Example parse_keystats_two_snapshots :
  output (parse_keystats Utils.data_string_to_float strptime_two
            mktime_utc utc (fst filled_quotes) (snd filled_quotes)
            [("aapl"%string,
               [("20100101000000.html"%string,
                  Ok "<td>Beta:</td><td>1.5</td>"%string);
                ("20100104000000.html"%string,
                  Ok "<td>Beta:</td><td>1.6</td>"%string)])])
  = Ok [mkRow (mkDatetime 14610 0) 1262304000 "aapl"
          (num 30) (num (5000 # 100)) (num 100) (num (1000 # 100))
          (repeat N_A 29 ++ [Number 1.5] ++ repeat N_A 11)].
Proof. vm_compute. reflexivity. Qed.



End AssemblerFacts.

(* ===================================================================== *)
(** * Part four: further properties of the code                           *)
(* ===================================================================== *)

From Stdlib Require Import Lqa.

(* ===================================================================== *)
(** * Further properties of backtesting.py                                *)
(* ===================================================================== *)

Module BacktestMore.

Import Backtesting ReturnSpec PyFacts BacktestingFacts.

Lemma total_growth (xs : list Q) :
  (total (map growth xs)
   == inject_Z (Z.of_nat (List.length xs)) + total xs / 100)%Q.
Proof.
  unfold total, growth. induction xs as [|x xs IH].
  - simpl. reflexivity.
  - cbn [map fold_right List.length]. rewrite IH.
    rewrite Nat2Z.inj_succ. unfold Z.succ. rewrite inject_Z_plus.
    field.
Qed.

(** Averaging growth factors and converting back is averaging the percent
    changes. *)
Lemma average_return_is_average (xs : list Q) :
  xs <> [] -> (average_return xs == average xs)%Q.
Proof.
  intros Hne. unfold average_return, percentage, average.
  rewrite length_map, total_growth.
  assert (Hn : ~ (inject_Z (Z.of_nat (List.length xs)) == 0)%Q).
  { destruct xs; [congruence|]. unfold Qeq. simpl. lia. }
  field. exact Hn.
Qed.

Lemma total_difference (rs : list (Q * Q)) :
  (total (map (fun r => fst r - snd r) rs)
   == total (map fst rs) - total (map snd rs))%Q.
Proof.
  unfold total. induction rs as [|r rs IH]; simpl; [reflexivity|].
  rewrite IH. ring.
Qed.

(** What [calculate_returns] returns when a row is predicted positive. *)
Lemma calculate_returns_eval (y_pred : list bool) (z_test : list (Q * Q)) :
  0 < sum_bool y_pred ->
  List.length z_test = List.length y_pred ->
  exists s m : Q,
    calculate_returns y_pred (floats z_test)
    = ([], Ok [num (inject_Z (sum_bool y_pred)); num s; num m; num (s - m)])
    /\ (s == average_return (map fst (predicted_positive y_pred z_test)))%Q
    /\ (m == average_return (map snd (predicted_positive y_pred z_test)))%Q.
Proof.
  intros Hpos Hlen. set (picked := predicted_positive y_pred z_test).
  unfold calculate_returns.
  destruct (Z.leb_spec (sum_bool y_pred) 0) as [Hle|_]; [lia|].
  assert (Hlen' : List.length (floats z_test) = List.length y_pred)
    by (unfold floats; now rewrite length_map).
  rewrite (mask_select_positive _ _ Hlen'), predicted_positive_floats.
  fold picked. cbv beta iota zeta delta [bind].
  assert (Hn : Z.of_nat (List.length picked) = sum_bool y_pred)
    by (apply predicted_positive_length; exact Hlen).
  destruct (sum_of_growth fst fst picked) as (gs & Es & Hs); [reflexivity|].
  destruct (sum_of_growth snd snd picked) as (gm & Em & Hm); [reflexivity|].
  rewrite Es, Em.
  destruct (percentage_of_quotient _ _ _ Hs Hpos) as (s & E1 & H1).
  destruct (percentage_of_quotient _ _ _ Hm Hpos) as (m & E2 & H2).
  rewrite E1, E2. exists s, m. split; [reflexivity|]. split.
  - rewrite H1. unfold average_return, average.
    rewrite !length_map, Hn. reflexivity.
  - rewrite H2. unfold average_return, average.
    rewrite !length_map, Hn. reflexivity.
Qed.

(** X1. With at least one positive prediction, the strategy and benchmark
    figures that [calculate_returns] reports are the plain arithmetic means
    of the percent changes of the rows predicted positive (the detour through
    growth factors changes nothing), and the outperformance is the mean of
    the row-by-row excess of the ticker over the benchmark. *)
Theorem reported_returns_are_means (y_pred : list bool) (z_test : list (Q * Q)) :
  0 < sum_bool y_pred ->
  List.length z_test = List.length y_pred ->
  let picked := predicted_positive y_pred z_test in
  exists s m o : Q,
    output (calculate_returns y_pred (floats z_test))
    = Ok [num (inject_Z (Z.of_nat (List.length picked))); num s; num m; num o]
    /\ (s == average (map fst picked))%Q
    /\ (m == average (map snd picked))%Q
    /\ (o == average (map (fun r => fst r - snd r) picked))%Q.
Proof.
  intros Hpos Hlen picked.
  destruct (calculate_returns_eval y_pred z_test Hpos Hlen)
    as (s & m & E & Hs & Hm).
  fold picked in Hs, Hm.
  assert (Hn : Z.of_nat (List.length picked) = sum_bool y_pred)
    by (apply predicted_positive_length; exact Hlen).
  assert (Hne : picked <> []).
  { intros E0. rewrite E0 in Hn. simpl in Hn. lia. }
  assert (Hs' : (s == average (map fst picked))%Q).
  { rewrite Hs. apply average_return_is_average.
    intros E0. apply map_eq_nil in E0. contradiction. }
  assert (Hm' : (m == average (map snd picked))%Q).
  { rewrite Hm. apply average_return_is_average.
    intros E0. apply map_eq_nil in E0. contradiction. }
  exists s, m, (s - m)%Q. rewrite E, Hn.
  split; [reflexivity|]. split; [exact Hs'|]. split; [exact Hm'|].
  rewrite Hs', Hm'. unfold average. rewrite !length_map, total_difference.
  assert (Hz : ~ (inject_Z (Z.of_nat (List.length picked)) == 0)%Q).
  { rewrite Hn. unfold Qeq. simpl. lia. }
  field. exact Hz.
Qed.

Lemma reported_returns_are_means_witness :
  exists s m o : Q,
    output (calculate_returns [true; false; true]
              (floats [(10, 2); (-50, 40); (4, 1)]%Q))
    = Ok [num (inject_Z 2); num s; num m; num o]
    /\ (s == 7)%Q /\ (m == 1.5)%Q /\ (o == 5.5)%Q.
Proof.
  destruct (reported_returns_are_means [true; false; true]
              [(10, 2); (-50, 40); (4, 1)]%Q)
    as (s & m & o & E & Hs & Hm & Ho); [reflexivity | reflexivity |].
  exists s, m, o. split; [exact E|].
  split; [rewrite Hs | split; [rewrite Hm | rewrite Ho]];
    vm_compute; reflexivity.
Defined.

Lemma predicted_positive_agree {A} (y_pred : list bool) (z z' : list A) :
  List.length z = List.length y_pred ->
  List.length z' = List.length y_pred ->
  (forall i, nth_error y_pred i = Some true -> nth_error z i = nth_error z' i) ->
  predicted_positive y_pred z = predicted_positive y_pred z'.
Proof.
  unfold predicted_positive.
  revert z z'. induction y_pred as [|b y_pred IH]; intros [|r z] [|r' z'];
    simpl; intros H1 H2 H; try discriminate; [reflexivity|].
  injection H1 as H1. injection H2 as H2.
  assert (IH' : map snd (filter fst (combine y_pred z))
                = map snd (filter fst (combine y_pred z'))).
  { apply IH; auto. intros i Hi. exact (H (S i) Hi). }
  destruct b; simpl; [|exact IH'].
  specialize (H O eq_refl). simpl in H. injection H as ->. now rewrite IH'.
Qed.

(** X2. The rows predicted negative play no part in the report: two return
    matrices that agree on the rows predicted positive give the same return
    of [calculate_returns], log included. *)
Theorem negative_rows_are_ignored (y_pred : list bool)
    (z z' : list (float * float)) :
  List.length z = List.length y_pred ->
  List.length z' = List.length y_pred ->
  (forall i, nth_error y_pred i = Some true -> nth_error z i = nth_error z' i) ->
  calculate_returns y_pred z = calculate_returns y_pred z'.
Proof.
  intros H1 H2 H. unfold calculate_returns.
  destruct (sum_bool y_pred <=? 0); [reflexivity|].
  rewrite (mask_select_positive _ _ H1), (mask_select_positive _ _ H2).
  now rewrite (predicted_positive_agree y_pred z z' H1 H2 H).
Qed.

Lemma negative_rows_are_ignored_witness :
  calculate_returns [true; false] [(num 10, num 2); (num 99, NaN)]
  = calculate_returns [true; false] [(num 10, num 2); (num (-3), num 8)].
Proof.
  apply (negative_rows_are_ignored [true; false]
           [(num 10, num 2); (num 99, NaN)]
           [(num 10, num 2); (num (-3), num 8)] eq_refl eq_refl).
  intros [|[|i]] Hi; simpl in *; try discriminate; reflexivity.
Defined.

Lemma status_calc_combine (stock sp500 : list float) (threshold : Q) :
  status_calc stock sp500 threshold
  = map (fun z => outperforms threshold (fst z) (snd z)) (combine stock sp500).
Proof.
  revert sp500. induction stock as [|s stock IH]; intros [|m sp500];
    simpl; try reflexivity.
  now rewrite IH.
Qed.

Lemma take_rows_map {A B} (f : A -> B) (l : list A) (idx : list nat) :
  take_rows (map f l) idx
  = match take_rows l idx with
    | Ok r => Ok (map f r)
    | Raise e => Raise e
    end.
Proof.
  induction idx as [|i idx IH]; simpl; [reflexivity|].
  rewrite nth_error_map.
  destruct (nth_error l i); simpl; [|reflexivity].
  rewrite IH. destruct (take_rows l idx); reflexivity.
Qed.

Lemma take_rows_length {A} (l : list A) (idx : list nat) (r : list A) :
  take_rows l idx = Ok r -> List.length r = List.length idx.
Proof.
  revert r. induction idx as [|i idx IH]; simpl; intros r H.
  - now injection H as <-.
  - destruct (nth_error l i); [|discriminate].
    destruct (take_rows l idx) as [r'|]; simpl in H; [|discriminate].
    injection H as <-. simpl. f_equal. now apply IH.
Qed.

End BacktestMore.

Module PipelineMore.

Import Backtesting PyFacts BacktestMore MoreScenarios.

Section Pipeline.

Variable rng : Type.
Variable RandomState : Z -> rng.
Variable shuffle_split : rng -> nat -> Q -> result (list nat * list nat).
Variable classifier : Type.
Variable fit : list (list float) -> list bool -> result classifier.
Variable predict : classifier -> list (list float) -> result (list bool).

(** X3. When keystats.csv cannot be read, or has no row without a missing
    value, [backtest] logs the failure and returns without raising, and the
    classifier is never consulted: the run is the same for every [fit] and
    [predict]. *)
Theorem backtest_without_data {L} (global_rng : rng)
    (csv : result (DataFrame L)) :
  (forall data_df, csv = Ok data_df -> empty (dropna data_df) = true) ->
  output (backtest rng RandomState shuffle_split classifier fit predict
            global_rng csv) = Ok None
  /\ In (Log ERROR "Data loading failed. Exiting backtest.")
        (records (backtest rng RandomState shuffle_split classifier fit predict
                    global_rng csv))
  /\ forall (classifier' : Type)
       (fit' : list (list float) -> list bool -> result classifier')
       (predict' : classifier' -> list (list float) -> result (list bool)),
       backtest rng RandomState shuffle_split classifier' fit' predict'
         global_rng csv
       = (records (backtest rng RandomState shuffle_split classifier fit predict
                     global_rng csv), Ok None).
Proof.
  intros H. unfold backtest, load_data.
  destruct csv as [data_df|e].
  - cbn [bindM logM retM]. rewrite (H data_df eq_refl).
    cbn. split; [reflexivity|]. split; [tauto|].
    intros classifier' fit' predict'. reflexivity.
  - cbn. split; [reflexivity|]. split; [tauto|].
    intros classifier' fit' predict'. reflexivity.
Qed.

Lemma split_rows_aligned {L} (g : rng) (data_df : DataFrame L)
    (test_size : Q) X_train X_test y_train y_test z_train z_test :
  split_data rng RandomState shuffle_split g data_df test_size
  = Ok (X_train, X_test, y_train, y_test, z_train, z_test) ->
  y_train = map (fun z => outperforms 10 (fst z) (snd z)) z_train
  /\ y_test = map (fun z => outperforms 10 (fst z) (snd z)) z_test
  /\ List.length X_train = List.length y_train
  /\ List.length X_test = List.length y_test.
Proof.
  intros H.
  apply (SplitFacts.split_data_rows rng RandomState shuffle_split) in H
    as (y & z & train & test & Hy & Hz & _ & H1 & H2 & H3 & H4 & H5 & H6).
  unfold labels in Hy. unfold returns in Hz.
  destruct (get_column data_df "stock_p_change") as [stock|]; [|discriminate].
  destruct (get_column data_df "SP500_p_change") as [sp500|]; [|discriminate].
  cbn [bind] in Hy, Hz. injection Hy as <-. injection Hz as <-.
  rewrite status_calc_combine, take_rows_map in H3, H4.
  rewrite H5 in H3. rewrite H6 in H4.
  injection H3 as <-. injection H4 as <-.
  rewrite !length_map.
  rewrite (take_rows_length _ _ _ H1), (take_rows_length _ _ _ H2),
    (take_rows_length _ _ _ H5), (take_rows_length _ _ _ H6).
  repeat split; reflexivity.
Qed.

(** X4. The arrays of a split stay aligned: in the training part and in the
    held-out part alike, the i-th label is the outperformance label (at
    threshold 10) of the i-th pair of returns, and there are as many feature
    rows as labels. *)
Theorem split_keeps_rows_aligned {L} (g : rng) (data_df : DataFrame L)
    (test_size : Q) X_train X_test y_train y_test z_train z_test :
  split_data rng RandomState shuffle_split g data_df test_size
  = Ok (X_train, X_test, y_train, y_test, z_train, z_test) ->
  y_train = map (fun z => outperforms 10 (fst z) (snd z)) z_train
  /\ y_test = map (fun z => outperforms 10 (fst z) (snd z)) z_test
  /\ List.length X_train = List.length y_train
  /\ List.length X_test = List.length y_test.
Proof. apply split_rows_aligned. Qed.

(** X5. When the classifier answers one prediction per held-out row and at
    least one is positive, [backtest] ends with a report and without the
    "no stocks" warning: the number of trades is the number of positive
    predictions and the outperformance is the strategy figure minus the
    benchmark figure. *)
Theorem backtest_reports {L} (global_rng : rng) (data_df : DataFrame L)
    (X_train X_test : list (list float)) (y_train y_test : list bool)
    (z_train z_test : list (float * float))
    (clf : classifier) (y_pred : list bool) :
  empty (dropna data_df) = false ->
  split_data rng RandomState shuffle_split global_rng (dropna data_df) (2 # 10)
  = Ok (X_train, X_test, y_train, y_test, z_train, z_test) ->
  fit X_train y_train = Ok clf ->
  predict clf X_test = Ok y_pred ->
  List.length y_pred = List.length X_test ->
  0 < sum_bool y_pred ->
  exists report,
    output (backtest rng RandomState shuffle_split classifier fit predict
              global_rng (Ok data_df)) = Ok (Some report)
    /\ total_trades report = num (inject_Z (sum_bool y_pred))
    /\ outperformance_pct report
       = fsub (avg_strategy_return_pct report) (avg_benchmark_return_pct report)
    /\ ~ In (Log WARNING "No stocks predicted!")
            (records (backtest rng RandomState shuffle_split classifier fit
                        predict global_rng (Ok data_df))).
Proof.
  intros Hne Hsplit Hfit Hpred Hlen Hpos.
  destruct (split_rows_aligned _ _ _ _ _ _ _ _ _ Hsplit)
    as (_ & Hy & _ & Hx).
  assert (Hz : List.length z_test = List.length y_pred).
  { rewrite Hlen, Hx, Hy. now rewrite length_map. }
  unfold backtest, load_data.
  cbn [bindM logM retM liftM]. rewrite Hne, Hsplit.
  unfold train_model, evaluate_model. rewrite Hfit. cbn [bindM liftM].
  rewrite Hpred. cbn [bindM liftM bind logM].
  unfold calculate_returns.
  destruct (Z.leb_spec (sum_bool y_pred) 0) as [Hle|_]; [lia|].
  rewrite (BacktestingFacts.mask_select_positive _ _ Hz).
  cbv beta iota zeta delta [bind liftM bindM unpack4 logM retM app].
  eexists. split; [reflexivity|]. cbn [total_trades outperformance_pct
    avg_strategy_return_pct avg_benchmark_return_pct].
  split; [reflexivity|]. split; [reflexivity|].
  cbn [records fst]. intros Hin.
  repeat (destruct Hin as [Hin|Hin]; [discriminate|]). exact Hin.
Qed.

End Pipeline.

Lemma backtest_without_data_witness :
  output (backtest unit (fun _ => tt) Scenarios.fixed_split unit
            Scenarios.fit_nothing Scenarios.predict_negative tt
            (@Raise (DataFrame string) OSError)) = Ok None.
Proof.
  apply (backtest_without_data unit (fun _ => tt) Scenarios.fixed_split unit
           Scenarios.fit_nothing Scenarios.predict_negative tt).
  intros data_df H. discriminate.
Defined.

Lemma split_keeps_rows_aligned_witness :
  [true] = map (fun z => outperforms 10 (fst z) (snd z)) [(num 25, num 5)]
  /\ [false] = map (fun z => outperforms 10 (fst z) (snd z)) [(num 3, num 5)].
Proof.
  destruct (split_keeps_rows_aligned unit (fun _ => tt) Scenarios.fixed_split
              tt Scenarios.two_rows (2 # 10)
              [[num 1000]] [[num 2000]] [true] [false]
              [(num 25, num 5)] [(num 3, num 5)] eq_refl) as (H1 & H2 & _).
  split; assumption.
Defined.

Lemma backtest_reports_witness :
  exists report,
    output (backtest unit (fun _ => tt) Scenarios.fixed_split unit
              Scenarios.fit_nothing predict_positive tt (Ok Scenarios.two_rows))
    = Ok (Some report)
    /\ total_trades report = num (inject_Z 1).
Proof.
  destruct (backtest_reports unit (fun _ => tt) Scenarios.fixed_split unit
              Scenarios.fit_nothing predict_positive tt Scenarios.two_rows
              [[num 1000]] [[num 2000]] [true] [false]
              [(num 25, num 5)] [(num 3, num 5)] tt [true])
    as (report & E & Ht & _); try reflexivity.
  exists report. split; [exact E | exact Ht].
Defined.

End PipelineMore.

(* ===================================================================== *)
(** * Further properties of parsing_keystats.py                           *)
(* ===================================================================== *)

Module AssemblerMore.

Import ParsingKeystats MoreScenarios AssemblerFacts.


(** X6. The two dates that key the lookups of a snapshot. When local
    clocks show the time [t] of the file name at the instant [mktime t], as
    they do for every time that the zone does not skip, the first date is
    the date of the file name. When moreover the offset of the zone changes
    by at most a day between that instant and the end of the horizon, the
    second date is 364, 365 or 366 days after the first, and 365 days after
    it exactly when the change of offset does not carry the time of day
    across midnight. *)
Theorem snapshot_dates_within_a_day (mktime : datetime -> Z)
    (utc_offset : Z -> Z) (t : datetime) :
  fromtimestamp utc_offset (mktime t) = t ->
  - 86400 <= utc_offset (mktime t + horizon_seconds) - utc_offset (mktime t)
          <= 86400 ->
  date (fromtimestamp utc_offset (mktime t)) = date t
  /\ date t + 364 <= one_year_later utc_offset (mktime t) <= date t + 366
  /\ (one_year_later utc_offset (mktime t) = date t + 365
      <-> 0 <= second_of_day t
               + (utc_offset (mktime t + horizon_seconds)
                  - utc_offset (mktime t)) < 86400).
Proof.
  intros E Hshift.
  pose proof (HorizonFacts.second_of_day_range utc_offset (mktime t)) as Hs.
  unfold one_year_later. rewrite HorizonFacts.fromtimestamp_later, E in *.
  cbn [date].
  set (x := second_of_day t
            + (utc_offset (mktime t + horizon_seconds) - utc_offset (mktime t)))
    in *.
  assert (Hx : - 86400 <= x < 2 * 86400) by (unfold x; lia).
  pose proof (Z.div_mod x 86400 ltac:(lia)) as Hdm.
  pose proof (Z.mod_pos_bound x 86400 ltac:(lia)) as Hm.
  split; [reflexivity|]. split; [lia|].
  split; intros H.
  - assert (x / 86400 = 0) by lia. lia.
  - rewrite Z.div_small by exact H. lia.
Qed.

(** The snapshot 20100313233000.html in New York: daylight saving moves the
    clocks an hour forward within the horizon, and its end is 366 days
    later. *)
Lemma snapshot_dates_within_a_day_witness :
  date (fromtimestamp Scenarios.new_york
          (Scenarios.mktime_new_york (mkDatetime 14681 84600))) = 14681
  /\ 14681 + 364
     <= one_year_later Scenarios.new_york
          (Scenarios.mktime_new_york (mkDatetime 14681 84600))
     <= 14681 + 366.
Proof.
  destruct (snapshot_dates_within_a_day Scenarios.mktime_new_york
              Scenarios.new_york (mkDatetime 14681 84600))
    as (H1 & H2 & _).
  - vm_compute. reflexivity.
  - vm_compute. split; discriminate.
  - split; [exact H1 | exact H2].
Defined.

Section Assembler.

Variable data_string_to_float : string -> result entry.
Variable strptime : string -> result datetime.
Variable mktime : datetime -> Z.
Variable utc_offset : Z -> Z.

Lemma parse_html_file_returns (file : result string) :
  exists value_list,
    output (parse_html_file data_string_to_float file features) = Ok value_list.
Proof.
  destruct (ExtractorFacts.parse_html_file_cases data_string_to_float
              file features) as [(contents & vl & _ & _ & Hp)|Hp].
  - exists vl. now rewrite Hp.
  - eexists. exact Hp.
Qed.






Lemma price_and_change_zero (df : DataFrame Z) (column : string)
    (current_date later_date : Z) :
  zero_price df column current_date later_date ->
  price_and_change df column current_date later_date = Raise ZeroDivisionError.
Proof.
  intros (p0 & p1 & H0 & Hz & H1). unfold price_and_change.
  rewrite H0, H1. cbn [bind]. unfold p_change, pydiv, num.
  apply Qeq_bool_iff in Hz. rewrite Hz. reflexivity.
Qed.

(** X9. A price of zero at the snapshot's date is fatal: when the benchmark
    (or, the benchmark being fine, the ticker) is quoted at zero on the
    snapshot's date and has a quote one year later, the percentage change
    divides by zero, the [ZeroDivisionError] is not among the handled
    exceptions, and the loop over the ticker's files ends in it, whatever
    rows were collected before. *)
Theorem zero_price_aborts (sp500_df stock_df : DataFrame Z) (ticker : string)
    (file : string * result string) (t : datetime)
    (files : list (string * result string)) (df : list LabeledRow) :
  strptime (fst file) = Ok t ->
  let unix_time := mktime t in
  let current_date := date (fromtimestamp utc_offset unix_time) in
  let later_date := one_year_later utc_offset unix_time in
  zero_price sp500_df "Adj Close" current_date later_date
  \/ (is_ok (price_and_change sp500_df "Adj Close" current_date later_date)
      = true
      /\ zero_price stock_df (upper ticker) current_date later_date) ->
  output (snapshot_row data_string_to_float strptime mktime utc_offset
            sp500_df stock_df ticker file) = Raise ZeroDivisionError
  /\ output (ticker_rows data_string_to_float strptime mktime utc_offset
            sp500_df stock_df ticker (file :: files) df)
     = Raise ZeroDivisionError.
Proof.
  intros Ht unix_time current_date later_date H.
  assert (E : output (snapshot_row data_string_to_float strptime mktime utc_offset
            sp500_df stock_df ticker file)
              = Raise ZeroDivisionError).
  { unfold snapshot_row. rewrite Ht.
    rewrite output_bindM. cbn [liftM output snd]. rewrite output_bindM.
    destruct (parse_html_file_returns (snd file)) as [vl Hvl]. rewrite Hvl.
    fold unix_time. fold current_date later_date.
    destruct H as [H|[Hok H]].
    - rewrite (price_and_change_zero _ _ _ _ H). reflexivity.
    - destruct (price_and_change sp500_df "Adj Close" current_date later_date)
        as [[p c]|e]; [|discriminate].
      rewrite (price_and_change_zero _ _ _ _ H). reflexivity. }
  split; [exact E|].
  cbn [ticker_rows]. rewrite output_bindM, E. reflexivity.
Qed.

Lemma remove_first_middle (x : string) (l1 l2 : list (string * result string))
    (body : result string) :
  ~ In x (map fst l1) ->
  remove_first x (l1 ++ (x, body) :: l2) = l1 ++ l2.
Proof.
  induction l1 as [|[name b] l1 IH]; intros H; cbn [app remove_first].
  - now rewrite String.eqb_refl.
  - cbn [map fst In] in H.
    destruct (String.eqb_spec x name) as [->|_]; [tauto|].
    f_equal. apply IH. tauto.
Qed.

Lemma remove_first_absent (x : string) (l : list (string * result string)) :
  ~ In x (map fst l) -> remove_first x l = l.
Proof.
  induction l as [|[name b] l IH]; intros H; cbn [remove_first]; [reflexivity|].
  cbn [map fst In] in H.
  destruct (String.eqb_spec x name) as [->|_]; [tauto|].
  f_equal. apply IH. tauto.
Qed.

(** X10. A [.DS_Store] entry among the files of a ticker is never treated
    as a snapshot: the walk gives the same result, log included, as for the
    directory without the entry (file names in a directory being distinct),
    so the name [.DS_Store] is never handed to [strptime]. *)
Theorem ds_store_is_not_a_snapshot (sp500_df stock_df : DataFrame Z)
    (ticker : string) (before after : list (string * result string))
    (body : result string)
    (stock_list : list (string * list (string * result string)))
    (df : list LabeledRow) :
  ~ In ".DS_Store"%string (map fst (before ++ after)) ->
  parse_keystats_from data_string_to_float strptime mktime utc_offset
    sp500_df stock_df
    ((ticker, before ++ (".DS_Store"%string, body) :: after) :: stock_list) df
  = parse_keystats_from data_string_to_float strptime mktime utc_offset
      sp500_df stock_df ((ticker, before ++ after) :: stock_list) df.
Proof.
  intros H. cbn [parse_keystats_from].
  rewrite remove_first_middle, remove_first_absent; [reflexivity|exact H|].
  rewrite map_app in H. intros Hin. apply H. apply in_or_app. now left.
Qed.

End Assembler.



Lemma zero_price_aborts_witness :
  output (snapshot_row Utils.data_string_to_float Scenarios.strptime_two
            Scenarios.mktime_utc Scenarios.utc
            zero_quotes one_quote "aapl"
            ("20100101000000.html"%string,
              Ok "<td>Beta:</td><td>1.5</td>"%string))
  = Raise ZeroDivisionError.
Proof.
  pose proof (zero_price_aborts Utils.data_string_to_float
                Scenarios.strptime_two Scenarios.mktime_utc Scenarios.utc
                zero_quotes one_quote "aapl"
                ("20100101000000.html"%string,
                  Ok "<td>Beta:</td><td>1.5</td>"%string)
                (mkDatetime 14610 0) [] [] eq_refl) as H.
  cbv zeta in H. apply H. left.
  exists 0%Q, (num 110). repeat split; vm_compute; reflexivity.
Defined.

Lemma ds_store_is_not_a_snapshot_witness :
  parse_keystats_from Utils.data_string_to_float Scenarios.strptime_two
    Scenarios.mktime_utc Scenarios.utc
    zero_quotes one_quote
    [("aapl"%string,
       [(".DS_Store"%string, Ok ""%string);
        ("20100104000000.html"%string, Ok ""%string)])] []
  = parse_keystats_from Utils.data_string_to_float Scenarios.strptime_two
      Scenarios.mktime_utc Scenarios.utc
      zero_quotes one_quote
      [("aapl"%string, [("20100104000000.html"%string, Ok ""%string)])] [].
Proof.
  apply (ds_store_is_not_a_snapshot Utils.data_string_to_float
           Scenarios.strptime_two Scenarios.mktime_utc Scenarios.utc
           zero_quotes one_quote "aapl"
           [] [("20100104000000.html"%string, Ok ""%string)]).
  cbn. intros [H|[]]. discriminate.
Defined.

End AssemblerMore.

(* ===================================================================== *)
(** * Where a matched token comes from                                    *)
(* ===================================================================== *)

Module PatternFacts.

Import Regex MoreScenarios.
Local Open Scope string_scope.

Lemma append_assoc_s (a b c : string) : (a ++ b) ++ c = a ++ (b ++ c).
Proof. induction a as [|x a IH]; simpl; [reflexivity | now rewrite IH]. Qed.

Lemma append_nil_r (a : string) : a ++ "" = a.
Proof. induction a as [|x a IH]; simpl; [reflexivity | now rewrite IH]. Qed.

Lemma length_append_s (a b : string) :
  String.length (a ++ b) = (String.length a + String.length b)%nat.
Proof. induction a as [|x a IH]; simpl; [reflexivity | now rewrite IH]. Qed.

Lemma prefix_append (m s : string) :
  prefix (String.length (m ++ s) - String.length s) (m ++ s) = m.
Proof.
  rewrite length_append_s.
  replace (String.length m + String.length s - String.length s)%nat
    with (String.length m) by lia.
  induction m as [|x m IH]; simpl.
  - now destruct s.
  - now rewrite IH.
Qed.

(** A literal matches only at the head of the text. *)
Lemma matches_lit (v s : string) (caps : captures)
    (k : string -> captures -> option captures) (c : captures) :
  matches (lit v) s caps k = Some c ->
  exists s', s = v ++ s' /\ k s' caps = Some c.
Proof.
  revert s. induction v as [|a v IH]; intros s H.
  - exists s. split; [reflexivity | exact H].
  - cbn [lit matches] in H. destruct s as [|a' s]; [discriminate|].
    destruct (Ascii.eqb_spec a a') as [<-|_]; [|discriminate].
    destruct (IH _ H) as (s' & -> & Hk). exists s'. split; [reflexivity|exact Hk].
Qed.

(** A pattern without groups consumes a piece of the text and hands the
    rest, with the captures unchanged, to what follows. *)
Lemma matches_plain (r : regex) :
  no_group r = true ->
  forall (s : string) (caps : captures)
         (k : string -> captures -> option captures) (c : captures),
    matches r s caps k = Some c ->
    exists m s', s = m ++ s' /\ k s' caps = Some c.
Proof.
  induction r as [a | | p | r1 IH1 r2 IH2 | r1 IH1 r2 IH2 | r1 IH1 | r1 IH1
                 | r1 IH1 | n r1 IH1 | ];
    intros Hng s caps k c H; cbn [no_group] in Hng.
  - cbn [matches] in H. destruct s as [|a' s]; [discriminate|].
    destruct (Ascii.eqb a a'); [|discriminate].
    exists (String a' ""), s. split; [reflexivity | exact H].
  - cbn [matches] in H. destruct s as [|a' s]; [discriminate|].
    exists (String a' ""), s. split; [reflexivity | exact H].
  - cbn [matches] in H. destruct s as [|a' s]; [discriminate|].
    destruct (p a'); [|discriminate].
    exists (String a' ""), s. split; [reflexivity | exact H].
  - apply andb_prop in Hng as [H1 H2]. cbn [matches] in H.
    destruct (IH1 H1 _ _ _ _ H) as (m1 & s1 & -> & H').
    destruct (IH2 H2 _ _ _ _ H') as (m2 & s2 & -> & H'').
    exists (m1 ++ m2), s2. split; [now rewrite append_assoc_s | exact H''].
  - apply andb_prop in Hng as [H1 H2]. cbn [matches] in H.
    destruct (matches r1 s caps k) as [c1|] eqn:E.
    + injection H as <-. exact (IH1 H1 _ _ _ _ E).
    + exact (IH2 H2 _ _ _ _ H).
  - cbn [matches] in H.
    destruct (matches r1 s caps k) as [c1|] eqn:E.
    + injection H as <-. exact (IH1 Hng _ _ _ _ E).
    + exists "", s. split; [reflexivity | exact H].
  - cbn [matches] in H. revert H. generalize (String.length s) as fuel.
    intros fuel. revert s caps. induction fuel as [|fuel IHf]; intros s caps H.
    + exists "", s. split; [reflexivity | exact H].
    + match type of H with
      | match ?t with _ => _ end = _ => destruct t as [c1|] eqn:E
      end.
      * injection H as <-.
        destruct (IH1 Hng _ _ _ _ E) as (m1 & s1 & -> & H').
        destruct (String.length s1 <? String.length (m1 ++ s1))%nat;
          [|discriminate].
        destruct (IHf _ _ H') as (m2 & s2 & -> & H'').
        exists (m1 ++ m2), s2. split; [now rewrite append_assoc_s | exact H''].
      * exists "", s. split; [reflexivity | exact H].
  - cbn [matches] in H. revert H. generalize (String.length s) as fuel.
    intros fuel. revert s caps. induction fuel as [|fuel IHf]; intros s caps H.
    + destruct (k s caps) as [c1|] eqn:E; [|discriminate].
      exists "", s. split; [reflexivity | now rewrite E].
    + destruct (k s caps) as [c1|] eqn:E.
      * exists "", s. split; [reflexivity | now rewrite E].
      * destruct (IH1 Hng _ _ _ _ H) as (m1 & s1 & -> & H').
        destruct (String.length s1 <? String.length (m1 ++ s1))%nat;
          [|discriminate].
        destruct (IHf _ _ H') as (m2 & s2 & -> & H'').
        exists (m1 ++ m2), s2. split; [now rewrite append_assoc_s | exact H''].
  - discriminate.
  - exists "", s. split; [reflexivity | exact H].
Qed.

Lemma search_position (r : regex) (s : string) (c : captures) :
  search r s = Some c ->
  exists before t,
    s = before ++ t /\ matches r t [] (fun _ caps => Some caps) = Some c.
Proof.
  induction s as [|a s IH]; cbn [search]; intros H.
  - destruct (matches r "" [] _) as [c1|] eqn:E; [|discriminate].
    injection H as <-. exists "", "". split; [reflexivity | exact E].
  - destruct (matches r (String a s) [] _) as [c1|] eqn:E.
    + injection H as <-. exists "", (String a s). split; [reflexivity | exact E].
    + destruct (IH H) as (b & t & -> & Ht).
      exists (String a b), t. split; [reflexivity | exact Ht].
Qed.

(** What follows the anchor in both patterns: anything, the value token as
    group 1, an optional percent sign, a cell terminator. *)
Lemma matches_value_cell (V : regex) (s : string) (c : captures) :
  no_group V = true ->
  matches (Cat (LazyStar Any)
            (Cat (Group 1 V) (Cat (Opt (Chr "%")) terminator)))
          s [] (fun _ caps => Some caps) = Some c ->
  exists between token pct term after,
    s = between ++ token ++ pct ++ term ++ after
    /\ group 1 c = Some token
    /\ (pct = "" \/ pct = "%")
    /\ (term = "</td>" \/ term = "</span>").
Proof.
  intros HV H. cbn [matches] in H.
  change ((fix loop (fuel : nat) (s : string) (caps : captures) {struct fuel}
            : option captures := _) (String.length s) s [])
    with (matches (LazyStar Any) s []
            (fun s' caps' =>
               matches (Cat (Group 1 V) (Cat (Opt (Chr "%")) terminator))
                       s' caps' (fun _ caps => Some caps))) in H.
  apply (matches_plain (LazyStar Any) eq_refl) in H
    as (between & s1 & -> & H).
  cbn [matches] in H.
  apply (matches_plain V HV) in H as (token & s2 & -> & H).
  rewrite prefix_append in H.
  assert (Hpct : exists pct s3,
             s2 = pct ++ s3 /\ (pct = "" \/ pct = "%")
             /\ matches terminator s3 [(1%nat, token)]
                  (fun _ caps => Some caps) = Some c).
  { destruct s2 as [|a s2].
    - exists "", "". repeat split; auto.
    - destruct (Ascii.eqb_spec "%" a) as [<-|Hne].
      + match type of H with
        | match ?t with _ => _ end = _ => destruct t as [c1|] eqn:E
        end.
        * injection H as <-. exists "%", s2. repeat split; auto.
        * exists "", (String "%" s2). repeat split; auto.
      + exists "", (String a s2). repeat split; auto. }
  destruct Hpct as (pct & s3 & -> & Hpct & H3).
  unfold terminator in H3. cbn [matches] in H3.
  assert (Hterm : exists term after,
             s3 = term ++ after /\ (term = "</td>" \/ term = "</span>")
             /\ c = [(2%nat, term); (1%nat, token)]).
  { match type of H3 with
    | match ?t with _ => _ end = _ => destruct t as [c1|] eqn:E
    end.
    - injection H3 as <-.
      change (matches (Chr "<") s3 [(1%nat, token)] _)
        with (matches (lit "</td>") s3 [(1%nat, token)]
                (fun s' caps' =>
                   Some ((2%nat, prefix (String.length s3 - String.length s') s3)
                           :: caps'))) in E.
      apply matches_lit in E as (after & -> & E).
      rewrite prefix_append in E. injection E as <-.
      exists "</td>", after. repeat split; auto.
    - change (matches (Chr "<") s3 [(1%nat, token)] _)
        with (matches (lit "</span>") s3 [(1%nat, token)]
                (fun s' caps' =>
                   Some ((2%nat, prefix (String.length s3 - String.length s') s3)
                           :: caps'))) in H3.
      apply matches_lit in H3 as (after & -> & H3).
      rewrite prefix_append in H3. injection H3 as <-.
      exists "</span>", after. repeat split; auto. }
  destruct Hterm as (term & after & -> & Hterm & ->).
  exists between, token, pct, term, after. repeat split; auto.
Qed.

Lemma prefix_occurs (p s : string) :
  String.prefix p s = true <-> exists after, s = p ++ after.
Proof.
  revert s. induction p as [|a p IH]; intros [|b s]; cbn [String.prefix].
  - split; [intros _; now exists "" | reflexivity].
  - split; [intros _; now exists (String b s) | reflexivity].
  - split; [discriminate | intros [after H]; discriminate].
  - destruct (Ascii.ascii_dec a b) as [->|Hne].
    + rewrite IH. split; intros [after H]; exists after;
        [now rewrite H | now injection H].
    + split; [discriminate | intros [after H]; cbn in H; congruence].
Qed.

(** The executable test of [utils] agrees with [occurs]. *)
Lemma contains_occurs (needle s : string) :
  Utils.contains needle s = true <-> occurs needle s.
Proof.
  unfold occurs. induction s as [|a s IH]; cbn [Utils.contains].
  - rewrite orb_false_r, prefix_occurs. split.
    + intros [after H]. exists "", after. exact H.
    + intros ([|b before] & after & H); [now exists after | discriminate].
  - rewrite orb_true_iff, prefix_occurs, IH. split.
    + intros [[after H]|(before & after & H)].
      * exists "", after. exact H.
      * exists (String a before), after. now rewrite H.
    + intros ([|b before] & after & H).
      * left. now exists after.
      * right. injection H as _ H. now exists before, after.
Qed.

Lemma remove_commas_no_comma (s before after : string) :
  Regex.remove_commas s <> before ++ "," ++ after.
Proof.
  revert before. induction s as [|a s IH]; intros before; cbn [Regex.remove_commas].
  - destruct before; discriminate.
  - destruct (Ascii.eqb_spec a ",") as [->|Hne]; [apply IH|].
    destruct before as [|b before]; cbn.
    + intros [= E _]. contradiction.
    + intros [= _ E]. exact (IH _ E).
Qed.

End PatternFacts.

Module ExtractorMore.

Import Regex MoreScenarios PatternFacts.
Local Open Scope string_scope.

Lemma matches_Cat (r1 r2 : regex) (s : string) (caps : captures)
    (k : string -> captures -> option captures) :
  matches (Cat r1 r2) s caps k
  = matches r1 s caps (fun s' caps' => matches r2 s' caps' k).
Proof. reflexivity. Qed.

Lemma matches_Chr (a : ascii) (s : string) (caps : captures)
    (k : string -> captures -> option captures) :
  matches (Chr a) s caps k
  = match s with
    | String a' s' => if Ascii.eqb a a' then k s' caps else None
    | EmptyString => None
    end.
Proof. reflexivity. Qed.

Lemma primary_match (variable s : string) (c : captures) :
  matches (primary_regex variable) s [] (fun _ caps => Some caps) = Some c ->
  exists between token pct term after,
    s = ">" ++ variable ++ between ++ token ++ pct ++ term ++ after
    /\ group 1 c = Some token
    /\ (pct = "" \/ pct = "%")
    /\ (term = "</td>" \/ term = "</span>").
Proof.
  intros H. unfold primary_regex in H.
  rewrite matches_Cat, matches_Chr in H.
  destruct s as [|a s]; [discriminate|].
  destruct (Ascii.eqb_spec ">" a) as [<-|_]; [|discriminate].
  rewrite matches_Cat in H.
  apply matches_lit in H as (s1 & -> & H).
  apply matches_value_cell in H
    as (between & token & pct & term & after & -> & Hg & Hp & Ht);
    [|reflexivity].
  exists between, token, pct, term, after. repeat split; auto.
Qed.

Lemma alternate_match (new_variable s : string) (c : captures) :
  matches (alternate_regex new_variable) s [] (fun _ caps => Some caps)
  = Some c ->
  exists between token pct term after,
    s = new_variable ++ between ++ token ++ pct ++ term ++ after
    /\ group 1 c = Some token
    /\ (pct = "" \/ pct = "%")
    /\ (term = "</td>" \/ term = "</span>").
Proof.
  intros H. unfold alternate_regex in H. rewrite matches_Cat in H.
  apply matches_lit in H as (s1 & -> & H).
  apply matches_value_cell in H
    as (between & token & pct & term & after & -> & Hg & Hp & Ht);
    [|reflexivity].
  exists between, token, pct, term, after. repeat split; auto.
Qed.

(** X11. The token that a field's pattern hands to the normaliser is a piece
    of the page: it stands after the label [">" + variable] and right before
    an optional percent sign and a closing [</td>] or [</span>]; the same
    holds for the alternate pattern and its label. A search either yields
    such a token or finds nothing (the [AttributeError] of the code): group
    1 takes part in every match. *)
Theorem token_comes_from_page (variable source : string) :
  (forall token,
      search_group1 (primary_regex variable) source = Ok token ->
      exists before between pct term after,
        source = before ++ ">" ++ variable ++ between
                 ++ token ++ pct ++ term ++ after
        /\ (pct = "" \/ pct = "%")
        /\ (term = "</td>" \/ term = "</span>"))
  /\ (forall token,
        search_group1 (alternate_regex variable) source = Ok token ->
        exists before between pct term after,
          source = before ++ variable ++ between
                   ++ token ++ pct ++ term ++ after
          /\ (pct = "" \/ pct = "%")
          /\ (term = "</td>" \/ term = "</span>"))
  /\ (forall e,
        search_group1 (primary_regex variable) source = Raise e
        \/ search_group1 (alternate_regex variable) source = Raise e ->
        e = AttributeError).
Proof.
  split; [|split].
  - intros token H. unfold search_group1 in H.
    destruct (search (primary_regex variable) source) as [c|] eqn:E;
      [|discriminate].
    apply search_position in E as (before & t & -> & E).
    apply primary_match in E
      as (between & tok & pct & term & after & -> & Hg & Hp & Ht).
    rewrite Hg in H. injection H as <-.
    exists before, between, pct, term, after. repeat split; auto.
  - intros token H. unfold search_group1 in H.
    destruct (search (alternate_regex variable) source) as [c|] eqn:E;
      [|discriminate].
    apply search_position in E as (before & t & -> & E).
    apply alternate_match in E
      as (between & tok & pct & term & after & -> & Hg & Hp & Ht).
    rewrite Hg in H. injection H as <-.
    exists before, between, pct, term, after. repeat split; auto.
  - intros e [H|H]; unfold search_group1 in H.
    + destruct (search (primary_regex variable) source) as [c|] eqn:E;
        [|congruence].
      apply search_position in E as (before & t & -> & E).
      apply primary_match in E as (? & tok & ? & ? & ? & _ & Hg & _).
      rewrite Hg in H. discriminate.
    + destruct (search (alternate_regex variable) source) as [c|] eqn:E;
        [|congruence].
      apply search_position in E as (before & t & -> & E).
      apply alternate_match in E as (? & tok & ? & ? & ? & _ & Hg & _).
      rewrite Hg in H. discriminate.
Qed.

(** A token found is a piece of the text searched. *)
Lemma search_needs_label_token (variable source token : string) :
  search_group1 (primary_regex variable) source = Ok token ->
  exists before after, source = before ++ token ++ after.
Proof.
  intros H. unfold search_group1 in H.
  destruct (search (primary_regex variable) source) as [c|] eqn:E;
    [|discriminate].
  apply search_position in E as (before & t & -> & E).
  apply primary_match in E
    as (between & tok & pct & term & after & -> & Hg & _).
  rewrite Hg in H. injection H as <-.
  exists (before ++ ">" ++ variable ++ between), (pct ++ term ++ after).
  now rewrite !append_assoc_s.
Qed.

Lemma search_alternate_token (new_variable source token : string) :
  search_group1 (alternate_regex new_variable) source = Ok token ->
  exists before after, source = before ++ token ++ after.
Proof.
  intros H. unfold search_group1 in H.
  destruct (search (alternate_regex new_variable) source) as [c|] eqn:E;
    [|discriminate].
  apply search_position in E as (before & t & -> & E).
  apply alternate_match in E
    as (between & tok & pct & term & after & -> & Hg & _).
  rewrite Hg in H. injection H as <-.
  exists (before ++ new_variable ++ between), (pct ++ term ++ after).
  now rewrite !append_assoc_s.
Qed.

Lemma search_needs_label (variable source : string) :
  ~ occurs (">" ++ variable) source ->
  search (primary_regex variable) source = None.
Proof.
  intros Hno. destruct (search (primary_regex variable) source) as [c|] eqn:E;
    [|reflexivity].
  exfalso. apply Hno.
  apply search_position in E as (before & t & -> & E).
  apply primary_match in E as (between & tok & pct & term & after & -> & _).
  exists before, (between ++ tok ++ pct ++ term ++ after).
  now rewrite !append_assoc_s.
Qed.

Lemma search_alternate_needs_label (new_variable source : string) :
  ~ occurs new_variable source ->
  search (alternate_regex new_variable) source = None.
Proof.
  intros Hno.
  destruct (search (alternate_regex new_variable) source) as [c|] eqn:E;
    [|reflexivity].
  exfalso. apply Hno.
  apply search_position in E as (before & t & -> & E).
  apply alternate_match in E as (between & tok & pct & term & after & -> & _).
  exists before, (between ++ tok ++ pct ++ term ++ after). reflexivity.
Qed.

Section Normaliser.

Variable data_string_to_float : string -> result entry.

(** X12. A field whose label is not on the page gets no value: when the
    page (commas removed) contains neither [">" + variable] nor, for the
    renamed field, [">Average Volume (3 month)"], [parse_html_file] records
    ["N/A"] for the field, whatever else the page holds and whatever the
    normaliser does; [parse_html] hands the token ["N/A"] to the normaliser
    for any field whose label is absent. *)
Theorem absent_label_is_na :
  (forall (contents : string) (features : list string) (i : nat)
          (variable : string),
      nth_error features i = Some variable ->
      ~ occurs (">" ++ variable) (remove_commas contents) ->
      ~ occurs ">Average Volume (3 month)" (remove_commas contents) ->
      exists value_list,
        output (ParsingKeystats.parse_html_file data_string_to_float
                  (Ok contents) features) = Ok value_list
        /\ nth_error value_list i = Some N_A)
  /\ (forall source variable,
        ~ occurs (">" ++ variable) source ->
        CurrentData.feature_value data_string_to_float source variable
        = data_string_to_float "N/A").
Proof.
  split.
  - intros contents features i variable Hi Hno Halt.
    assert (Hu : ParsingKeystats.feature_value data_string_to_float
                   (remove_commas contents) variable = Ok N_A).
    { apply ExtractorFacts.feature_value_K_unfound.
      - now apply search_needs_label.
      - intros _. now apply search_alternate_needs_label. }
    destruct (ExtractorFacts.parse_html_file_cases data_string_to_float
                (Ok contents) features)
      as [(contents' & vl & Hc & Hv & Hp)|Hp].
    + injection Hc as <-. exists vl. rewrite Hp. split; [reflexivity|].
      apply ExtractorFacts.feature_values_K_spec in Hv.
      clear Hp. revert i Hi.
      induction Hv as [|x v xs vs Hx _ IH]; intros [|i] Hi;
        cbn [nth_error] in *; try discriminate.
      * injection Hi as ->. congruence.
      * now apply IH.
    + eexists. split; [exact Hp|].
      apply ExtractorFacts.nth_error_repeat. apply nth_error_Some. congruence.
  - intros source variable Hno. unfold CurrentData.feature_value.
    rewrite (search_needs_label _ _ Hno). reflexivity.
Qed.

End Normaliser.

Lemma token_comes_from_page_witness :
  search_group1 (primary_regex "Beta")
    "<td>Beta:</td><td class=x>1.5%</td>" = Ok "1.5"
  /\ exists before between pct term after,
       "<td>Beta:</td><td class=x>1.5%</td>"
       = before ++ ">" ++ "Beta" ++ between ++ "1.5" ++ pct ++ term ++ after.
Proof.
  assert (H : search_group1 (primary_regex "Beta")
                "<td>Beta:</td><td class=x>1.5%</td>" = Ok "1.5")
    by reflexivity.
  split; [exact H|].
  destruct (proj1 (token_comes_from_page "Beta"
                     "<td>Beta:</td><td class=x>1.5%</td>") "1.5" H)
    as (before & between & pct & term & after & E & _).
  exists before, between, pct, term, after. exact E.
Defined.

Lemma absent_label_is_na_witness :
  exists value_list,
    output (ParsingKeystats.parse_html_file Utils.data_string_to_float
              (Ok "<td>Beta:</td><td>1.5</td>") ["Market Cap"; "Beta"])
    = Ok value_list
    /\ nth_error value_list 0 = Some N_A.
Proof.
  apply (proj1 (absent_label_is_na Utils.data_string_to_float)
           "<td>Beta:</td><td>1.5</td>" ["Market Cap"; "Beta"] 0%nat
           "Market Cap" eq_refl).
  - intros H. apply contains_occurs in H. discriminate H.
  - intros H. apply contains_occurs in H. discriminate H.
Defined.

End ExtractorMore.

(* ===================================================================== *)
(** * The forward sample (current_data.py)                                *)
(* ===================================================================== *)

Module ForwardFacts.

Import Forward MoreScenarios.

Lemma distinct_NoDup (l : list string) : distinct l = true -> NoDup l.
Proof.
  induction l as [|x l IH]; cbn [distinct]; intros H; constructor.
  - apply andb_prop in H as [H _]. intros Hin.
    assert (existsb (String.eqb x) l = true).
    { apply existsb_exists. exists x. split; [exact Hin | apply String.eqb_refl]. }
    rewrite H0 in H. discriminate.
  - apply andb_prop in H as [_ H]. auto.
Qed.

Lemma df_columns_distinct : NoDup df_columns.
Proof. apply distinct_NoDup. vm_compute. reflexivity. Qed.

Lemma dict_get_absent (key : string) (keys : list string) (vals : list cell) :
  ~ In key keys -> dict_get key (combine keys vals) = None.
Proof.
  revert vals. induction keys as [|k keys IH]; intros [|v vals] H;
    cbn [combine dict_get]; try reflexivity.
  rewrite IH by (intros Hin; apply H; now right).
  destruct (String.eqb_spec key k) as [->|_]; [|reflexivity].
  exfalso. apply H. now left.
Qed.

(** In a dictionary zipped from distinct keys, a key has the value at its
    own position. *)
Lemma dict_get_combine (keys : list string) (vals : list cell) (i : nat)
    (key : string) :
  NoDup keys -> List.length keys = List.length vals ->
  nth_error keys i = Some key ->
  dict_get key (combine keys vals) = nth_error vals i.
Proof.
  intros Hnd. revert vals i.
  induction Hnd as [|k keys Hk Hnd IH]; intros [|v vals] i Hlen Hi;
    cbn [List.length] in Hlen; try discriminate.
  - destruct i; discriminate.
  - injection Hlen as Hlen. cbn [combine dict_get]. destruct i as [|i].
    + injection Hi as <-. rewrite dict_get_absent by exact Hk.
      now rewrite String.eqb_refl.
    + cbn [nth_error] in *. rewrite (IH vals i Hlen Hi).
      destruct (nth_error vals i) eqn:E; [reflexivity|].
      apply nth_error_None in E.
      assert (i < List.length keys)%nat
        by (apply nth_error_Some; congruence).
      lia.
Qed.

Lemma appended_row_zip (keys : list string) (vals : list cell) :
  NoDup keys -> List.length keys = List.length vals ->
  appended_row keys (combine keys vals) = vals.
Proof.
  intros Hnd Hlen. apply nth_error_ext. intros i. unfold appended_row.
  rewrite nth_error_map.
  destruct (nth_error keys i) as [key|] eqn:E; cbn [option_map].
  - rewrite (dict_get_combine keys vals i key Hnd Hlen E).
    destruct (nth_error vals i) eqn:Ev; [reflexivity|].
    apply nth_error_None in Ev.
    assert (i < List.length keys)%nat by (apply nth_error_Some; congruence).
    lia.
  - apply nth_error_None in E. symmetry. apply nth_error_None. lia.
Qed.

Lemma replace_na_never_marker (c : cell) : replace_na c <> CStr "N/A".
Proof.
  destruct c as [z|s|q|]; cbn [replace_na]; try discriminate.
  destruct (String.eqb_spec s "N/A") as [->|Hne]; [discriminate|].
  intros [= E]. contradiction.
Qed.

Section Normaliser.

Variable data_string_to_float : string -> result entry.

Lemma parse_html_returns (body : result string) :
  exists l,
    CurrentData.parse_html data_string_to_float body
    = (l, Ok (parsed data_string_to_float body))
    /\ List.length (parsed data_string_to_float body)
       = List.length CurrentData.features.
Proof.
  unfold parsed, CurrentData.parse_html.
  generalize CurrentData.features. intros features.
  destruct body as [contents|e]; cbn [bind].
  - destruct (CurrentData.feature_values data_string_to_float
                (Regex.remove_commas contents) features) as [vl|e] eqn:E.
    + eexists. split; [reflexivity|]. cbn [output retM snd].
      now apply ExtractorFacts.feature_values_C_length in E.
    + eexists. split; [reflexivity|]. cbn. apply repeat_length.
  - eexists. split; [reflexivity|]. cbn. apply repeat_length.
Qed.

Lemma sample_row_length (file : string * result string) :
  List.length (sample_row data_string_to_float file) = List.length df_columns.
Proof.
  unfold sample_row, df_columns. rewrite !length_app, length_map.
  destruct (parse_html_returns (snd file)) as (l & _ & ->). reflexivity.
Qed.

Lemma forward_rows_spec (files : list (string * result string))
    (df : list (list cell)) :
  output (forward_rows data_string_to_float files df)
  = Ok (df ++ map (sample_row data_string_to_float) files).
Proof.
  revert df. induction files as [|file files IH]; intros df.
  - cbn. now rewrite app_nil_r.
  - cbn [forward_rows].
    destruct (parse_html_returns (snd file)) as (l & E & Hlen).
    rewrite E. cbn [bindM].
    specialize (IH (df ++ [appended_row df_columns
                     (combine df_columns (sample_row data_string_to_float file))])).
    unfold sample_row at 1 in IH.
    destruct (forward_rows data_string_to_float files _) as [l' r] eqn:E'.
    cbn [output snd] in IH |- *. rewrite IH.
    rewrite appended_row_zip;
      [| exact df_columns_distinct | symmetry; apply sample_row_length].
    cbn [map]. now rewrite <- app_assoc.
Qed.

(** X13. [forward] returns one row per file of the forward directory, in
    the order of the listing and without [.DS_Store]; whatever a page holds
    (or when it cannot be read) its row has one cell for each of the 48
    columns: zeros in the six numeric label columns, the upper-cased name of
    the file up to [.html] as ticker, and the 41 parsed values; and no cell
    of the result is the marker ["N/A"], every one having become NaN. *)
Theorem forward_sample_shape (listing : list (string * result string)) :
  output (forward data_string_to_float listing)
  = Ok (map (fun file => map replace_na (sample_row data_string_to_float file))
            (remove_first ".DS_Store" listing))
  /\ forall row,
       In row (map (fun file =>
                      map replace_na (sample_row data_string_to_float file))
                   (remove_first ".DS_Store" listing)) ->
       List.length row = 48%nat
       /\ (forall c, In c row -> c <> CStr "N/A")
       /\ firstn 2 row = [CInt 0; CInt 0]
       /\ firstn 4 (skipn 3 row) = [CInt 0; CInt 0; CInt 0; CInt 0].
Proof.
  split.
  - unfold forward. rewrite AssemblerFacts.output_bindM, forward_rows_spec.
    cbn [output retM snd app]. now rewrite map_map.
  - intros row Hin. apply in_map_iff in Hin as (file & <- & _).
    split; [|split; [|split]].
    + rewrite length_map, sample_row_length. reflexivity.
    + intros c Hc. apply in_map_iff in Hc as (c0 & <- & _).
      apply replace_na_never_marker.
    + reflexivity.
    + reflexivity.
Qed.

End Normaliser.

(** Two files of the forward directory, and the hidden file of the system. *)
Example forward_two_files :
  output (forward Utils.data_string_to_float
            [(".DS_Store"%string, Raise OSError);
             ("aapl.html"%string, Ok "<td>Beta</td><td>1.5</td>"%string);
             ("msft.html"%string, Raise OSError)])
  = Ok [ [CInt 0; CInt 0; CStr "AAPL"; CInt 0; CInt 0; CInt 0; CInt 0]
         ++ repeat CNaN 29 ++ [CFloat 1.5] ++ repeat CNaN 11;
         [CInt 0; CInt 0; CStr "MSFT"; CInt 0; CInt 0; CInt 0; CInt 0]
         ++ repeat CNaN 41 ].
Proof. vm_compute. reflexivity. Qed.

Lemma forward_sample_shape_witness :
  List.length
    (map replace_na
       (sample_row Utils.data_string_to_float
          ("aapl.html"%string, Ok "<td>Beta</td><td>1.5</td>"%string)))
  = 48%nat.
Proof.
  apply (proj2 (forward_sample_shape Utils.data_string_to_float
                  [("aapl.html"%string, Ok "<td>Beta</td><td>1.5</td>"%string)])).
  left. reflexivity.
Defined.

End ForwardFacts.

(* ===================================================================== *)
(** * download_historical_prices.py                                       *)
(* ===================================================================== *)

Module DownloadFacts.

Import DownloadHistoricalPrices FillSpec MoreScenarios.

Lemma select_in {A} (mask : list bool) (l : list A) (x : A) :
  In x (select mask l)
  <-> exists j, nth_error mask j = Some true /\ nth_error l j = Some x.
Proof.
  revert l. induction mask as [|b mask IH]; intros [|y l]; cbn [select].
  - split; [intros [] | intros ([|j] & H & _); discriminate].
  - split; [intros [] | intros ([|j] & H & _); discriminate].
  - split; [intros [] | intros ([|j] & _ & H); discriminate].
  - destruct b.
    + cbn [In]. rewrite IH. split.
      * intros [<-|(j & H1 & H2)]; [exists O; auto | exists (S j); auto].
      * intros ([|j] & H1 & H2); cbn [nth_error] in *;
          [left; congruence | right; eauto].
    + rewrite IH. split.
      * intros (j & H1 & H2). exists (S j). auto.
      * intros ([|j] & H1 & H2); cbn [nth_error] in *;
          [discriminate | eauto].
Qed.

Lemma select_length {A B} (mask : list bool) (l : list A) (l' : list B) :
  List.length l = List.length mask -> List.length l' = List.length mask ->
  List.length (select mask l) = List.length (select mask l').
Proof.
  revert l l'. induction mask as [|b mask IH]; intros [|x l] [|y l'] H1 H2;
    cbn [select List.length] in *; try discriminate; try reflexivity.
  injection H1 as H1. injection H2 as H2.
  destruct b; cbn [List.length]; rewrite (IH l l' H1 H2); reflexivity.
Qed.

Lemma nth_error_map_seq {A} (f : nat -> A) (n j : nat) :
  (j < n)%nat -> nth_error (map f (seq 0 n)) j = Some (f j).
Proof.
  intros H. rewrite nth_error_map, nth_error_seq.
  destruct (Nat.ltb_spec j n); [reflexivity | lia].
Qed.

Lemma rectangular_dropna_columns {L} (df : DataFrame L) :
  rectangular df -> rectangular (dropna_columns df).
Proof.
  unfold rectangular, dropna_columns. cbn [rows columns].
  rewrite !Forall_forall. intros H lr Hin.
  apply in_map_iff in Hin as (lr0 & <- & Hin). cbn [snd].
  apply select_length; rewrite length_map, length_seq;
    [now apply H | reflexivity].
Qed.

Lemma fill_row_complete (prev r : list float) :
  List.length prev = List.length r ->
  row_complete prev = true -> row_complete (fill_row prev r) = true.
Proof.
  revert prev. induction r as [|c r IH]; intros [|p prev] Hlen Hp;
    cbn [List.length] in Hlen; try discriminate; [reflexivity|].
  injection Hlen as Hlen. unfold row_complete in *.
  cbn [fill_row forallb hd tl] in *. apply andb_prop in Hp as [Hp1 Hp2].
  rewrite (IH prev Hlen Hp2), andb_true_r.
  destruct (isna c) eqn:E; [exact Hp1 | now rewrite E].
Qed.

Lemma fill_row_length (prev r : list float) :
  List.length (fill_row prev r) = List.length r.
Proof.
  revert prev. induction r as [|c r IH]; intros prev; cbn; [reflexivity|].
  now rewrite IH.
Qed.

Section Width.

Variable L : Type.
Variable w : nat.

Lemma ffill_from_complete (prev : list float) (rs : list (L * list float)) :
  Forall (fun lr => List.length (snd lr) = w) rs -> List.length prev = w -> row_complete prev = true ->
  forallb (fun lr => row_complete (snd lr)) (ffill_from prev rs) = true.
Proof.
  intros Hw. revert prev. induction Hw as [|[l r] rs Hr Hw IH];
    intros prev Hlen Hp; cbn [ffill_from forallb]; [reflexivity|].
  cbn [snd] in *. rewrite (fill_row_complete prev r) by congruence.
  apply IH; [now rewrite fill_row_length | apply fill_row_complete; congruence].
Qed.

(** After a forward fill, the complete rows are the rows from some row on. *)
Lemma complete_rows_suffix (prev : list float) (rs : list (L * list float)) :
  Forall (fun lr => List.length (snd lr) = w) rs ->
  exists k,
    filter (fun lr => row_complete (snd lr)) (ffill_from prev rs)
    = skipn k (ffill_from prev rs).
Proof.
  intros Hw. revert prev. induction Hw as [|[l r] rs Hr Hw IH]; intros prev.
  - exists O. reflexivity.
  - cbn [ffill_from filter snd] in *.
    destruct (row_complete (fill_row prev r)) eqn:E.
    + exists O. cbn [skipn]. f_equal. apply forallb_filter_id.
      apply ffill_from_complete; [exact Hw | now rewrite fill_row_length | exact E].
    + destruct (IH (fill_row prev r)) as [k Hk]. exists (S k). exact Hk.
Qed.

(** Below a price, forward fill leaves no gap in the column. *)
Lemma ffill_from_below (prev : list float) (rs : list (L * list float))
    (j : nat) :
  Forall (fun lr => List.length (snd lr) = w) rs -> (j < w)%nat -> isna (nth j prev NaN) = false ->
  forall lr, In lr (ffill_from prev rs) -> isna (nth j (snd lr) NaN) = false.
Proof.
  intros Hw Hj. revert prev. induction Hw as [|[l r] rs Hr Hw IH];
    intros prev Hp lr Hin; cbn [ffill_from In snd] in *; [contradiction|].
  assert (Hfill : isna (nth j (fill_row prev r) NaN) = false).
  { rewrite PandasFacts.fill_row_nth by lia.
    destruct (isna (nth j r NaN)) eqn:E; [exact Hp | exact E]. }
  destruct Hin as [<-|Hin]; [exact Hfill|].
  exact (IH _ Hfill lr Hin).
Qed.

Lemma ffill_from_no_gap (prev : list float) (rs : list (L * list float))
    (above below : list (L * list float)) (lr : L * list float) (j : nat) :
  Forall (fun lr => List.length (snd lr) = w) rs ->
  ffill_from prev rs = above ++ lr :: below ->
  isna (nth j (snd lr) NaN) = false ->
  forall lr', In lr' below -> isna (nth j (snd lr') NaN) = false.
Proof.
  intros Hw. revert prev above. induction Hw as [|[l r] rs Hr Hw IH];
    intros prev above Hsplit Hlr; cbn [ffill_from] in Hsplit.
  - destruct above; discriminate.
  - destruct above as [|a above]; cbn [app] in Hsplit.
    + injection Hsplit as <- <-. cbn [snd] in *.
      assert (Hj : (j < w)%nat).
      { destruct (Nat.lt_ge_cases j w) as [H|H]; [exact H|].
        rewrite nth_overflow in Hlr; [discriminate|].
        rewrite fill_row_length. lia. }
      apply ffill_from_below; [exact Hw | exact Hj | exact Hlr].
    + injection Hsplit as _ Hsplit. exact (IH _ _ Hsplit Hlr).
Qed.

End Width.

Lemma rectangular_wide {L} (df : DataFrame L) :
  rectangular df ->
  Forall (fun lr => List.length (snd lr) = List.length (columns df)) (rows df).
Proof. exact (fun H => H). Qed.

Lemma dropna_columns_in {L} (df : DataFrame L) (c : string) :
  In c (columns (dropna_columns df))
  <-> exists j, nth_error (columns df) j = Some c
                /\ has_value (rows df) j = true.
Proof.
  unfold dropna_columns. cbn [columns]. rewrite select_in. split.
  - intros (j & Hm & Hc).
    assert (Hj : (j < List.length (columns df))%nat)
      by (apply nth_error_Some; congruence).
    rewrite nth_error_map_seq in Hm by exact Hj.
    exists j. split; [exact Hc | congruence].
  - intros (j & Hc & Hv).
    assert (Hj : (j < List.length (columns df))%nat)
      by (apply nth_error_Some; congruence).
    exists j. split; [|exact Hc].
    rewrite nth_error_map_seq by exact Hj. now rewrite Hv.
Qed.

(** X14. [download_data] keeps exactly the tickers that have a price: a name
    is a column of the result if and only if it names a column of the
    download in which some day has a price; the days are those of the
    download; and once a column has a price, no later day of the result lacks
    one (the last price is carried forward). A failed download gives the
    empty frame and no exception. *)
Theorem download_data_columns (stock_data : DataFrame Z) :
  rectangular stock_data ->
  exists result_df,
    download_data (Ok stock_data) = retM result_df
    /\ index result_df = index stock_data
    /\ (forall c,
          In c (columns result_df)
          <-> exists j, nth_error (columns stock_data) j = Some c
                        /\ has_value (rows stock_data) j = true)
    /\ (forall above lr below j,
          rows result_df = above ++ lr :: below ->
          isna (nth j (snd lr) NaN) = false ->
          forall lr', In lr' below -> isna (nth j (snd lr') NaN) = false)
    /\ (forall e, output (download_data (Raise e)) = Ok empty_frame).
Proof.
  intros Hrect. eexists. split; [reflexivity|].
  split; [|split; [|split]].
  - unfold index, ffill, dropna_columns. cbn [rows].
    rewrite PandasFacts.ffill_from_labels, map_map. reflexivity.
  - intros c. apply dropna_columns_in.
  - intros above lr below j Hsplit Hlr lr' Hin.
    unfold ffill in Hsplit. cbn [rows] in Hsplit.
    apply (ffill_from_no_gap Z _ [] _ above below lr j
             (rectangular_wide _ (rectangular_dropna_columns _ Hrect))
             Hsplit Hlr lr' Hin).
  - intros e. reflexivity.
Qed.

(** X15. The stock prices that [download_data] produces lose only a leading
    block of days when [load_data] of parsing_keystats.py drops the
    incomplete rows: the rows kept are all the rows from some day on, so the
    loaded index has no hole that the download did not have. *)
Theorem loading_drops_a_leading_block (stock_data : DataFrame Z) :
  rectangular stock_data ->
  exists result_df k,
    output (download_data (Ok stock_data)) = Ok result_df
    /\ output (ParsingKeystats.load_data (Ok result_df))
       = Ok (mkDF (columns result_df) (skipn k (rows result_df))).
Proof.
  intros Hrect.
  destruct (complete_rows_suffix Z
              (List.length (columns (dropna_columns stock_data))) []
              (rows (dropna_columns stock_data))) as [k Hk].
  { apply rectangular_wide, rectangular_dropna_columns, Hrect. }
  exists (ffill (dropna_columns stock_data)), k. split; [reflexivity|].
  unfold ParsingKeystats.load_data, dropna. cbn [output retM snd].
  unfold ffill at 2 3. cbn [rows]. rewrite Hk. reflexivity.
Qed.

Lemma is_column_in (c : string) (cols : list string) :
  is_column c cols = true <-> In c cols.
Proof.
  unfold is_column. rewrite existsb_exists. split.
  - intros (x & Hin & E). apply String.eqb_eq in E. now subst.
  - intros H. exists c. split; [exact H | apply String.eqb_refl].
Qed.

(** X16. [build_stock_dataset] reports a ticker of the snapshot directory
    as missing exactly when no column of the download that bears its
    upper-cased name holds a price; [.DS_Store] is never reported; and when
    the download fails or holds no price at all, nothing is written and only
    a warning is logged. *)
Theorem missing_tickers_report (listing : list string)
    (stock_data : DataFrame Z) :
  (forall written missing,
      output (build_stock_dataset listing (Ok stock_data))
      = Ok (Some (written, missing)) ->
      output (download_data (Ok stock_data)) = Ok written
      /\ forall ticker,
           In ticker missing
           <-> In ticker (Forward.remove_name ".DS_Store" listing)
               /\ forall j, nth_error (columns stock_data) j = Some (upper ticker) ->
                            has_value (rows stock_data) j = false)
  /\ (empty (ffill (dropna_columns stock_data)) = true ->
      output (build_stock_dataset listing (Ok stock_data)) = Ok None
      /\ In (Log WARNING "No stock data available.")
            (records (build_stock_dataset listing (Ok stock_data))))
  /\ (forall e, output (build_stock_dataset listing (Raise e)) = Ok None
                /\ In (Log WARNING "No stock data available.")
                      (records (build_stock_dataset listing (Raise e)))).
Proof.
  remember (ffill (dropna_columns stock_data)) as result_df eqn:Er.
  assert (E : download_data (Ok stock_data) = retM result_df)
    by (now rewrite Er).
  assert (Hcols : forall c,
             In c (columns result_df)
             <-> exists j, nth_error (columns stock_data) j = Some c
                           /\ has_value (rows stock_data) j = true)
    by (intros c; rewrite Er; apply dropna_columns_in).
  split; [|split].
  - intros written missing H. unfold build_stock_dataset in H.
    rewrite E in H. cbn [bindM logM retM app] in H.
    destruct (negb (empty result_df)); cbn in H; [|discriminate].
    injection H as <- <-. rewrite E. split; [reflexivity|].
    intros ticker. rewrite filter_In, negb_true_iff. unfold get_ticker_list.
    cbn [snd]. split.
    + intros [Hin Hc]. split; [exact Hin|]. intros j Hj.
      destruct (has_value (rows stock_data) j) eqn:Ev; [|reflexivity].
      assert (is_column (upper ticker) (columns result_df) = true)
        by (apply is_column_in, Hcols; eauto).
      congruence.
    + intros [Hin Hc]. split; [exact Hin|].
      destruct (is_column (upper ticker) (columns result_df)) eqn:Ec;
        [|reflexivity].
      apply is_column_in, Hcols in Ec as (j & Hj & Hv).
      rewrite (Hc j Hj) in Hv. discriminate.
  - intros He. unfold build_stock_dataset.
    rewrite E. cbn [bindM logM retM app]. rewrite He.
    split; [reflexivity|]. cbn. tauto.
  - intros e. split; [reflexivity|]. cbn. tauto.
Qed.

Lemma download_data_columns_witness :
  exists result_df,
    download_data (Ok downloaded) = retM result_df
    /\ columns result_df = ["LATE"; "GAP"]%string
    /\ rows result_df
       = [(14610, [NaN; num 7]); (14611, [num 20; num 8]);
          (14612, [num 21; num 8])].
Proof.
  destruct (download_data_columns downloaded) as (result_df & E & _);
    [repeat constructor|].
  exists result_df. split; [exact E|].
  injection E as <-. split; reflexivity.
Defined.

Lemma loading_drops_a_leading_block_witness :
  exists result_df k,
    output (download_data (Ok downloaded)) = Ok result_df
    /\ output (ParsingKeystats.load_data (Ok result_df))
       = Ok (mkDF (columns result_df) (skipn k (rows result_df)))
    /\ rows (dropna result_df)
       = [(14611, [num 20; num 8]); (14612, [num 21; num 8])].
Proof.
  destruct (loading_drops_a_leading_block downloaded)
    as (result_df & k & E1 & E2); [repeat constructor|].
  exists result_df, k. split; [exact E1|]. split; [exact E2|].
  injection E1 as <-. reflexivity.
Defined.

Lemma missing_tickers_report_witness :
  output (build_stock_dataset [".DS_Store"; "dead"; "late"; "none"]%string
            (Ok downloaded))
  = Ok (Some (ffill (dropna_columns downloaded), ["dead"; "none"]%string))
  /\ (In "dead"%string ["dead"; "none"]%string
      <-> In "dead"%string
            (Forward.remove_name ".DS_Store"
               [".DS_Store"; "dead"; "late"; "none"]%string)
          /\ forall j, nth_error (columns downloaded) j = Some (upper "dead") ->
                       has_value (rows downloaded) j = false).
Proof.
  assert (E : output (build_stock_dataset
                        [".DS_Store"; "dead"; "late"; "none"]%string
                        (Ok downloaded))
              = Ok (Some (ffill (dropna_columns downloaded),
                          ["dead"; "none"]%string)))
    by (vm_compute; reflexivity).
  split; [exact E|].
  destruct (missing_tickers_report [".DS_Store"; "dead"; "late"; "none"]%string
              downloaded) as (H & _).
  exact (proj2 (H _ _ E) "dead"%string).
Defined.

End DownloadFacts.

(* ===================================================================== *)
(** * Rounding, listings and separators                                   *)
(* ===================================================================== *)

Module SmallFacts.

Import MoreScenarios.

Lemma round_half_even_near (q : Q) :
  (q - (1 # 2) <= inject_Z (round_half_even q) <= q + (1 # 2))%Q.
Proof.
  unfold round_half_even.
  pose proof (Qfloor_le q) as Hlo. pose proof (Qlt_floor q) as Hhi.
  rewrite inject_Z_plus in Hhi.
  change (inject_Z 1) with 1%Q in Hhi.
  destruct (Qcompare (q - inject_Z (Qfloor q)) (1 # 2)) eqn:E.
  - apply Qeq_alt in E.
    destruct (Z.even (Qfloor q)); rewrite ?inject_Z_plus;
      change (inject_Z 1) with 1%Q; lra.
  - apply Qlt_alt in E. lra.
  - apply Qgt_alt in E. rewrite inject_Z_plus.
    change (inject_Z 1) with 1%Q. lra.
Qed.

(** X17. The percentage change that [parse_keystats] stores is the exact
    change [100 * (later - now) / now] rounded to a whole number of
    hundredths, at most 0.005 away from it; a missing (NaN) price gives NaN
    and not an exception. *)
Theorem stored_change_is_rounded :
  (forall later now : Q,
      ~ (now == 0)%Q ->
      exists n : Z,
        p_change (num later) (num now) = Ok (num (inject_Z n / 100))
        /\ ((later - now) / now * 100 - (1 # 200)
            <= inject_Z n / 100
            <= (later - now) / now * 100 + (1 # 200))%Q)
  /\ (forall later : float, p_change later NaN = Ok NaN)
  /\ (forall now : Q, ~ (now == 0)%Q -> p_change NaN (num now) = Ok NaN).
Proof.
  split; [|split].
  - intros later now Hnz.
    exists (round_half_even ((later - now) / now * 100 * 100)).
    split.
    + unfold p_change, pydiv, num, fsub, lift2.
      destruct (Qeq_bool now 0) eqn:E;
        [apply Qeq_bool_iff in E; contradiction|].
      reflexivity.
    + pose proof (round_half_even_near ((later - now) / now * 100 * 100)) as H.
      set (x := ((later - now) / now * 100)%Q) in *.
      set (r := inject_Z (round_half_even (x * 100))) in *.
      assert (E : (r / 100 == r * (1 # 100))%Q) by (field).
      rewrite E. lra.
  - intros later. unfold p_change, pydiv. destruct later; reflexivity.
  - intros now Hnz. unfold p_change, pydiv, num.
    destruct (Qeq_bool now 0) eqn:E;
      [apply Qeq_bool_iff in E; contradiction|].
    reflexivity.
Qed.

Lemma stored_change_is_rounded_witness :
  exists n : Z,
    p_change (num 31) (num 30) = Ok (num (inject_Z n / 100))
    /\ ((31 - 30) / 30 * 100 - (1 # 200)
        <= inject_Z n / 100
        <= (31 - 30) / 30 * 100 + (1 # 200))%Q.
Proof.
  apply (proj1 stored_change_is_rounded 31%Q 30%Q).
  intros H. discriminate H.
Defined.

Lemma remove_name_absent (x : string) (l : list string) :
  ~ In x l -> Forward.remove_name x l = l.
Proof.
  induction l as [|name l IH]; intros H; cbn [Forward.remove_name];
    [reflexivity|].
  destruct (String.eqb_spec x name) as [->|_].
  - exfalso. apply H. now left.
  - f_equal. apply IH. intros Hin. apply H. now right.
Qed.

Lemma remove_name_filter (x : string) (l : list string) :
  NoDup l ->
  Forward.remove_name x l = filter (fun name => negb (String.eqb x name)) l.
Proof.
  induction 1 as [|name l Hname Hnd IH]; cbn [Forward.remove_name filter];
    [reflexivity|].
  destruct (String.eqb_spec x name) as [->|Hne]; cbn [negb].
  - rewrite <- IH. symmetry. now apply remove_name_absent.
  - now rewrite IH.
Qed.

(** X18. For a directory, whose names are distinct, both versions of
    [get_ticker_list] return every name other than [.DS_Store], in the order
    of the listing, and never [.DS_Store]; the version of
    download_historical_prices.py leaves the directory without that file, so a
    second call returns the same list. *)
Theorem ticker_list_without_ds_store (listing : list string) :
  NoDup listing ->
  Forward.get_ticker_list listing
  = filter (fun name => negb (String.eqb ".DS_Store" name)) listing
  /\ ~ In ".DS_Store"%string (Forward.get_ticker_list listing)
  /\ snd (DownloadHistoricalPrices.get_ticker_list listing)
     = Forward.get_ticker_list listing
  /\ DownloadHistoricalPrices.get_ticker_list
       (fst (DownloadHistoricalPrices.get_ticker_list listing))
     = DownloadHistoricalPrices.get_ticker_list listing.
Proof.
  intros Hnd.
  assert (E : Forward.get_ticker_list listing
              = filter (fun name => negb (String.eqb ".DS_Store" name)) listing)
    by (apply remove_name_filter; exact Hnd).
  assert (Hno : ~ In ".DS_Store"%string (Forward.get_ticker_list listing)).
  { rewrite E. intros Hin. apply filter_In in Hin as [_ H].
    rewrite String.eqb_refl in H. discriminate. }
  split; [exact E|]. split; [exact Hno|]. split; [reflexivity|].
  unfold DownloadHistoricalPrices.get_ticker_list. cbn [fst].
  unfold Forward.get_ticker_list in Hno.
  now rewrite (remove_name_absent _ _ Hno).
Qed.

Lemma ticker_list_without_ds_store_witness :
  Forward.get_ticker_list ["aapl"; ".DS_Store"; "msft"]%string
  = filter (fun name => negb (String.eqb ".DS_Store" name))
           ["aapl"; ".DS_Store"; "msft"]%string.
Proof.
  apply ticker_list_without_ds_store.
  apply ForwardFacts.distinct_NoDup. reflexivity.
Defined.

Local Open Scope string_scope.

(** X19. Thousands separators never reach the normaliser: the page is
    searched with its commas removed, so no token matched by a field's
    pattern (primary or alternate) contains a comma. *)
Theorem tokens_have_no_comma (variable contents token : string) :
  Regex.search_group1 (Regex.primary_regex variable)
    (Regex.remove_commas contents) = Ok token
  \/ Regex.search_group1 (Regex.alternate_regex variable)
       (Regex.remove_commas contents) = Ok token ->
  ~ occurs "," token.
Proof.
  intros H (b & a & ->).
  assert (Hsrc : exists before after,
             Regex.remove_commas contents = before ++ "," ++ after).
  { destruct H as [H|H].
    - apply ExtractorMore.search_needs_label_token in H
        as (before & after & E).
      exists (before ++ b), (a ++ after).
      rewrite E. now rewrite !PatternFacts.append_assoc_s.
    - apply ExtractorMore.search_alternate_token in H
        as (before & after & E).
      exists (before ++ b), (a ++ after).
      rewrite E. now rewrite !PatternFacts.append_assoc_s. }
  destruct Hsrc as (before & after & E).
  exact (PatternFacts.remove_commas_no_comma _ _ _ E).
Qed.

Lemma tokens_have_no_comma_witness :
  Regex.search_group1 (Regex.primary_regex "Avg Vol (3 month)")
    (Regex.remove_commas "<td>Avg Vol (3 month):</td><td>1,234,567</td>")
  = Ok "1234567"
  /\ ~ occurs "," "1234567".
Proof.
  split; [reflexivity|].
  apply (tokens_have_no_comma "Avg Vol (3 month)"
           "<td>Avg Vol (3 month):</td><td>1,234,567</td>" "1234567").
  left. reflexivity.
Defined.

End SmallFacts.
